(** * Cloud File Upload API: a shallow embedding of [main.py]

    The service forwards an uploaded file to AWS S3, Google Cloud Storage and
    Google Drive.  Everything the endpoints do is a sequence of calls into
    vendor SDKs, so the embedding keeps the vendor side abstract (record
    [External]) and models the endpoints themselves line by line in a small
    state-and-exception monad.  The state carries the vendor world, the
    cursor of the uploaded file, the one [os.environ] entry the code writes,
    and a log of the vendor calls made so far.

    Modelling choices: a vendor call either returns or raises a subclass of
    [Exception]; [file.seek] and [file.read] do not raise; the chain
    [service.files().create(...).execute()] is one vendor call, and so is
    [service.files().list(...).execute()]; [filename] and [content_type]
    are strings. *)

From Stdlib Require Import String List Bool Arith Lia.
From Stdlib Require Import Strings.Byte.
From Stdlib Require Import DecimalString.
Import ListNotations.
Local Open Scope list_scope.
Local Open Scope string_scope.

(** ** Python values used by the endpoints *)

Definition bytes := list byte.

(** Truthiness of an [Optional[str]]: [None] and the empty string are falsy. *)
Definition truthy (v : option string) : bool :=
  match v with
  | Some s => negb (s =? "")
  | None => false
  end.

(** Rendering of an [Optional[str]] inside an f-string. *)
Definition fmt (v : option string) : string :=
  match v with
  | Some s => s
  | None => "None"
  end.

(** ** Configuration ([class CloudConfig]) *)

Record CloudConfig := {
  AWS_ACCESS_KEY_ID : option string;
  AWS_SECRET_ACCESS_KEY : option string;
  AWS_REGION : string;
  S3_BUCKET_NAME : option string;
  GCS_BUCKET_NAME : option string;
  GOOGLE_APPLICATION_CREDENTIALS : option string;
  GOOGLE_DRIVE_CREDENTIALS_FILE : option string;
  GOOGLE_DRIVE_TOKEN_FILE : string;
  GOOGLE_DRIVE_FOLDER_ID : option string
}.

Definition Environ := string -> option string.

(** [os.getenv(key, default)] *)
Definition getenv_default (env : Environ) (key default : string) : string :=
  match env key with
  | Some v => v
  | None => default
  end.

(** The class body of [CloudConfig], evaluated once at import time. *)
Definition load_config (env : Environ) : CloudConfig := {|
  AWS_ACCESS_KEY_ID := env "AWS_ACCESS_KEY_ID";
  AWS_SECRET_ACCESS_KEY := env "AWS_SECRET_ACCESS_KEY";
  AWS_REGION := getenv_default env "AWS_REGION" "us-east-1";
  S3_BUCKET_NAME := env "S3_BUCKET_NAME";
  GCS_BUCKET_NAME := env "GCS_BUCKET_NAME";
  GOOGLE_APPLICATION_CREDENTIALS := env "GOOGLE_APPLICATION_CREDENTIALS";
  GOOGLE_DRIVE_CREDENTIALS_FILE := env "GOOGLE_DRIVE_CREDENTIALS_FILE";
  GOOGLE_DRIVE_TOKEN_FILE := getenv_default env "GOOGLE_DRIVE_TOKEN_FILE" "token.json";
  GOOGLE_DRIVE_FOLDER_ID := env "GOOGLE_DRIVE_FOLDER_ID"
|}.

Definition empty_environ : Environ := fun _ => None.

(** Replaces the two Drive credential settings and nothing else. *)
Definition with_drive_settings (cfg : CloudConfig)
    (creds_file : option string) (token_file : string) : CloudConfig := {|
  AWS_ACCESS_KEY_ID := AWS_ACCESS_KEY_ID cfg;
  AWS_SECRET_ACCESS_KEY := AWS_SECRET_ACCESS_KEY cfg;
  AWS_REGION := AWS_REGION cfg;
  S3_BUCKET_NAME := S3_BUCKET_NAME cfg;
  GCS_BUCKET_NAME := GCS_BUCKET_NAME cfg;
  GOOGLE_APPLICATION_CREDENTIALS := GOOGLE_APPLICATION_CREDENTIALS cfg;
  GOOGLE_DRIVE_CREDENTIALS_FILE := creds_file;
  GOOGLE_DRIVE_TOKEN_FILE := token_file;
  GOOGLE_DRIVE_FOLDER_ID := GOOGLE_DRIVE_FOLDER_ID cfg
|}.

(** ** Request and response models *)

(** The multipart file of a request.  Its read cursor is mutable and lives
    in the run state below. *)
Record UploadFile := {
  filename : string;
  content_type : string;
  content : bytes
}.

(** [class UploadResponse(BaseModel)] *)
Record UploadResponse := {
  success : bool;
  message : string;
  file_url : option string;
  file_id : option string
}.

(** JSON-level values of the dictionaries stored under ["results"]. *)
Inductive PyVal :=
| VBool (b : bool)
| VStr (s : string)
| VNone.

Definition of_opt (v : option string) : PyVal :=
  match v with
  | Some s => VStr s
  | None => VNone
  end.

(** A Python [dict] with string keys, in insertion order. *)
Definition PyDict (V : Type) := list (string * V).

Fixpoint dict_get {V} (d : PyDict V) (k : string) : option V :=
  match d with
  | [] => None
  | (k', v) :: d' => if k' =? k then Some v else dict_get d' k
  end.

(** [d[k] = v]: overwrite in place when the key exists, append otherwise. *)
Fixpoint dict_set {V} (d : PyDict V) (k : string) (v : V) : PyDict V :=
  match d with
  | [] => [(k, v)]
  | (k', v') :: d' =>
      if k' =? k then (k', v) :: d' else (k', v') :: dict_set d' k v
  end.

Definition keys {V} (d : PyDict V) : list string := map fst d.

(** [UploadResponse.dict()] *)
Definition to_dict (r : UploadResponse) : PyDict PyVal :=
  [ ("success", VBool (success r));
    ("message", VStr (message r));
    ("file_url", of_opt (file_url r));
    ("file_id", of_opt (file_id r)) ].

(** ** Exceptions *)

Inductive Exn :=
| HTTPException (status_code : nat) (detail : string)
| NoCredentialsError (msg : string)
| ClientError (msg : string)
| OtherException (msg : string).

(** ** Vendor calls as they appear in the call log *)

Inductive Backend := S3 | GCS | Drive.

Inductive Call :=
| Boto3Client (key secret : option string) (region : string)
| PutObject (bucket : option string) (key : string) (body : bytes) (ctype : string)
| ListObjectsV2 (bucket : option string)
| GcsClient (app_credentials : option string)
| GcsBucket (name : option string)
| GcsBlob (name : string)
| UploadFromString (body : bytes) (ctype : string)
| ListBlobs
| PathExists (path : string)
| FromAuthorizedUserFile (path : string) (scopes : list string)
| CredsRefresh
| Build (service version : string)
| MediaIoBaseUpload (body : bytes) (mimetype : string) (resumable : bool)
| FilesCreate (name : string) (parents : option (list string)) (fields : string)
| FilesList (q : option string) (pageSize : nat) (fields : string).

Definition backend_of (c : Call) : Backend :=
  match c with
  | Boto3Client _ _ _ | PutObject _ _ _ _ | ListObjectsV2 _ => S3
  | GcsClient _ | GcsBucket _ | GcsBlob _ | UploadFromString _ _ | ListBlobs => GCS
  | _ => Drive
  end.

Definition Backend_eqb (a b : Backend) : bool :=
  match a, b with
  | S3, S3 | GCS, GCS | Drive, Drive => true
  | _, _ => false
  end.

(** The backends in the order in which calls for them occur, each maximal
    run of calls for one backend counted once. *)
Fixpoint invoked (t : list Call) : list Backend :=
  match t with
  | [] => []
  | c :: t' =>
      match invoked t' with
      | b :: bs => if Backend_eqb (backend_of c) b then b :: bs
                   else backend_of c :: b :: bs
      | [] => [backend_of c]
      end
  end.

(** ** Response shapes of the vendor SDKs *)

Record S3Object := {
  obj_Key : string;
  obj_Size : nat;
  obj_LastModified : string   (* already in ISO format *)
}.

Record GcsBlobInfo := {
  blob_name : string;
  blob_size : option nat;
  blob_updated : option string   (* already in ISO format *)
}.

(** The dictionary answered by [files().create(...).execute()]; only the
    two keys the code reads with [.get]. *)
Record DriveCreated := {
  webViewLink : option string;
  id : option string
}.

(** ** The external collaborators

    Each SDK entry point is a transition on an abstract world [W] that
    either raises or returns.  Object handles are abstract.  The last field
    is [str(e)] for the web framework's own [HTTPException]. *)
Record External := {
  W : Type;
  S3Client : Type;
  GClient : Type;
  GBucket : Type;
  GBlob : Type;
  Creds : Type;
  DriveService : Type;
  Media : Type;
  DriveFile : Type;
  boto3_client :
    option string -> option string -> string -> W -> (Exn + S3Client) * W;
  put_object :
    S3Client -> option string -> string -> bytes -> string -> W -> (Exn + unit) * W;
  list_objects_v2 :
    S3Client -> option string -> W -> (Exn + list S3Object) * W;
  gcs_Client : option string -> W -> (Exn + GClient) * W;
  gcs_bucket : GClient -> option string -> W -> (Exn + GBucket) * W;
  gcs_blob : GBucket -> string -> W -> (Exn + GBlob) * W;
  upload_from_string : GBlob -> bytes -> string -> W -> (Exn + unit) * W;
  list_blobs : GBucket -> W -> (Exn + list GcsBlobInfo) * W;
  path_exists : string -> W -> bool;
  from_authorized_user_file :
    string -> list string -> W -> (Exn + Creds) * W;
  creds_valid : Creds -> W -> bool;
  creds_expired : Creds -> W -> bool;
  creds_refresh_token : Creds -> W -> option string;
  creds_refresh : Creds -> W -> (Exn + unit) * W;
  build : string -> string -> Creds -> W -> (Exn + DriveService) * W;
  media_io_base_upload : bytes -> string -> bool -> W -> (Exn + Media) * W;
  files_create :
    DriveService -> string -> option (list string) -> Media -> string ->
    W -> (Exn + DriveCreated) * W;
  files_list :
    DriveService -> option string -> nat -> string ->
    W -> (Exn + option (list DriveFile)) * W;
  str_HTTPException : nat -> string -> string
}.

Section Service.

Variable E : External.

(** [str(e)] *)
Definition str (e : Exn) : string :=
  match e with
  | HTTPException c d => str_HTTPException E c d
  | NoCredentialsError m => m
  | ClientError m => m
  | OtherException m => m
  end.

(** ** Run state and monad *)

Record State := {
  world : W E;
  cursor : nat;
  environ_app_credentials : option string;
  trace : list Call
}.

Definition M (A : Type) := State -> (Exn + A) * State.

Definition ret {A} (a : A) : M A := fun s => (inr a, s).

Definition raise {A} (e : Exn) : M A := fun s => (inl e, s).

Definition bind {A B} (m : M A) (k : A -> M B) : M B :=
  fun s =>
    match m s with
    | (inr a, s') => k a s'
    | (inl e, s') => (inl e, s')
    end.

(** [try: m  except Exception as e: h e] *)
Definition try_except {A} (m : M A) (h : Exn -> M A) : M A :=
  fun s =>
    match m s with
    | (inr a, s') => (inr a, s')
    | (inl e, s') => h e s'
    end.

Notation "x <- m ;; k" := (bind m (fun x => k))
  (at level 61, m at next level, right associativity).
Notation "m ;;; k" := (bind m (fun _ => k))
  (at level 61, right associativity).

(** A call into a vendor SDK: logged, then run on the world. *)
Definition vendor {A} (c : Call) (op : W E -> (Exn + A) * W E) : M A :=
  fun s =>
    let (r, w) := op (world s) in
    (r, {| world := w; cursor := cursor s;
           environ_app_credentials := environ_app_credentials s;
           trace := (trace s ++ [c])%list |}).

(** A vendor call that cannot raise ([os.path.exists]). *)
Definition vendor_query {A} (c : Call) (q : W E -> A) : M A :=
  vendor c (fun w => (inr (q w), w)).

(** Reading an attribute of a vendor object. *)
Definition attr {A} (q : W E -> A) : M A := fun s => (inr (q (world s)), s).

(** [await file.seek(0)] *)
Definition file_seek (pos : nat) : M unit :=
  fun s => (inr tt, {| world := world s; cursor := pos;
                       environ_app_credentials := environ_app_credentials s;
                       trace := trace s |}).

(** [await file.read()]: everything from the cursor to the end. *)
Definition file_read (file : UploadFile) : M bytes :=
  fun s =>
    (inr (skipn (cursor s) (content file)),
     {| world := world s;
        cursor := Nat.max (cursor s) (length (content file));
        environ_app_credentials := environ_app_credentials s;
        trace := trace s |}).

(** [os.environ["GOOGLE_APPLICATION_CREDENTIALS"] = v] *)
Definition set_environ_app_credentials (v : option string) : M unit :=
  fun s => (inr tt, {| world := world s; cursor := cursor s;
                       environ_app_credentials := v;
                       trace := trace s |}).

Definition get_environ_app_credentials : M (option string) :=
  fun s => (inr (environ_app_credentials s), s).

Variable cfg : CloudConfig.

(** ** Clients *)

Definition get_s3_client : M (S3Client E) :=
  try_except
    (vendor (Boto3Client (AWS_ACCESS_KEY_ID cfg) (AWS_SECRET_ACCESS_KEY cfg)
                         (AWS_REGION cfg))
            (boto3_client E (AWS_ACCESS_KEY_ID cfg) (AWS_SECRET_ACCESS_KEY cfg)
                          (AWS_REGION cfg)))
    (fun e => raise (HTTPException 500
                       ("Failed to initialize S3 client: " ++ str e))).

Definition get_gcs_client : M (GClient E) :=
  try_except
    ((if truthy (GOOGLE_APPLICATION_CREDENTIALS cfg)
      then set_environ_app_credentials (GOOGLE_APPLICATION_CREDENTIALS cfg)
      else ret tt) ;;;
     v <- get_environ_app_credentials ;;
     vendor (GcsClient v) (gcs_Client E v))
    (fun e => raise (HTTPException 500
                       ("Failed to initialize GCS client: " ++ str e))).

Definition token_path := "cred/drive/token.json".
Definition creds_file := "cred/drive/credentials.json".
Definition scopes := ["https://www.googleapis.com/auth/drive.file"].

Definition get_drive_service : M (DriveService E) :=
  try_except
    (exists_ <- vendor_query (PathExists token_path) (path_exists E token_path) ;;
     creds <- (if exists_ : bool
               then c <- vendor (FromAuthorizedUserFile token_path scopes)
                                (from_authorized_user_file E token_path scopes) ;;
                    ret (Some c)
               else ret None) ;;
     match creds with
     | None =>
         raise (HTTPException 401
           "Google Drive authentication required. Please run google_auth_flow.py to authenticate.")
     | Some c =>
         valid <- attr (creds_valid E c) ;;
         (if negb valid
          then expired <- attr (creds_expired E c) ;;
               refresh_token <-
                 (if expired : bool then attr (creds_refresh_token E c)
                  else ret None) ;;
               if expired && truthy refresh_token
               then vendor CredsRefresh (creds_refresh E c)
               else raise (HTTPException 401
                 "Google Drive authentication required. Please run google_auth_flow.py to authenticate.")
          else ret tt) ;;;
         vendor (Build "drive" "v3") (build E "drive" "v3" c)
     end)
    (fun e => raise (HTTPException 500
                       ("Failed to initialize Drive service: " ++ str e))).

(** ** Upload endpoints *)

(** [POST /upload/s3] *)
Definition upload_to_s3 (file : UploadFile) : M UploadResponse :=
  if negb (truthy (S3_BUCKET_NAME cfg))
  then raise (HTTPException 500 "S3 bucket name not configured")
  else
    try_except
      (s3_client <- get_s3_client ;;
       file_content <- file_read file ;;
       vendor (PutObject (S3_BUCKET_NAME cfg) (filename file) file_content
                         (content_type file))
              (put_object E s3_client (S3_BUCKET_NAME cfg) (filename file)
                          file_content (content_type file)) ;;;
       let file_url :=
         "https://" ++ fmt (S3_BUCKET_NAME cfg) ++ ".s3." ++ AWS_REGION cfg
           ++ ".amazonaws.com/" ++ filename file in
       ret {| success := true;
              message := "File '" ++ filename file
                           ++ "' uploaded successfully to S3";
              file_url := Some file_url;
              file_id := None |})
      (fun e =>
         match e with
         | NoCredentialsError _ =>
             raise (HTTPException 401 "AWS credentials not found")
         | ClientError _ =>
             raise (HTTPException 500 ("S3 upload failed: " ++ str e))
         | _ =>
             raise (HTTPException 500 ("Upload failed: " ++ str e))
         end).

(** [POST /upload/gcs] *)
Definition upload_to_gcs (file : UploadFile) : M UploadResponse :=
  if negb (truthy (GCS_BUCKET_NAME cfg))
  then raise (HTTPException 500 "GCS bucket name not configured")
  else
    try_except
      (client <- get_gcs_client ;;
       bucket <- vendor (GcsBucket (GCS_BUCKET_NAME cfg))
                        (gcs_bucket E client (GCS_BUCKET_NAME cfg)) ;;
       blob <- vendor (GcsBlob (filename file))
                      (gcs_blob E bucket (filename file)) ;;
       file_content <- file_read file ;;
       vendor (UploadFromString file_content (content_type file))
              (upload_from_string E blob file_content (content_type file)) ;;;
       let file_url :=
         "https://storage.googleapis.com/" ++ fmt (GCS_BUCKET_NAME cfg)
           ++ "/" ++ filename file in
       ret {| success := true;
              message := "File '" ++ filename file
                           ++ "' uploaded successfully to GCS";
              file_url := Some file_url;
              file_id := None |})
      (fun e =>
         raise (HTTPException 500 ("GCS upload failed: " ++ str e))).

(** [POST /upload/drive] *)
Definition upload_to_drive (file : UploadFile) : M UploadResponse :=
  try_except
    (service <- get_drive_service ;;
     file_content <- file_read file ;;
     media <- vendor (MediaIoBaseUpload file_content (content_type file) true)
                     (media_io_base_upload E file_content (content_type file)
                                           true) ;;
     let parents :=
       if truthy (GOOGLE_DRIVE_FOLDER_ID cfg)
       then Some [fmt (GOOGLE_DRIVE_FOLDER_ID cfg)]
       else None in
     uploaded_file <-
       vendor (FilesCreate (filename file) parents
                           "id,webViewLink,webContentLink")
              (files_create E service (filename file) parents media
                            "id,webViewLink,webContentLink") ;;
     ret {| success := true;
            message := "File '" ++ filename file
                         ++ "' uploaded successfully to Google Drive";
            file_url := webViewLink uploaded_file;
            file_id := id uploaded_file |})
    (fun e =>
       raise (HTTPException 500 ("Google Drive upload failed: " ++ str e))).

(** The dictionary stored for a backend whose attempt raised. *)
Definition failure_dict (e : Exn) : PyDict PyVal :=
  [ ("success", VBool false); ("message", VStr (str e)) ].

Record AllResponse := {
  results : PyDict (PyDict PyVal)
}.

(** [POST /upload/all] *)
Definition upload_to_all_services (file : UploadFile) : M AllResponse :=
  let results : PyDict (PyDict PyVal) := [] in
  results <-
    (if truthy (S3_BUCKET_NAME cfg) && truthy (AWS_ACCESS_KEY_ID cfg)
     then try_except
            (file_seek 0 ;;;
             s3_result <- upload_to_s3 file ;;
             ret (dict_set results "s3" (to_dict s3_result)))
            (fun e => ret (dict_set results "s3" (failure_dict e)))
     else ret results) ;;
  results <-
    (if truthy (GCS_BUCKET_NAME cfg)
     then try_except
            (file_seek 0 ;;;
             gcs_result <- upload_to_gcs file ;;
             ret (dict_set results "gcs" (to_dict gcs_result)))
            (fun e => ret (dict_set results "gcs" (failure_dict e)))
     else ret results) ;;
  results <-
    (if truthy (GOOGLE_DRIVE_CREDENTIALS_FILE cfg)
     then try_except
            (file_seek 0 ;;;
             drive_result <- upload_to_drive file ;;
             ret (dict_set results "drive" (to_dict drive_result)))
            (fun e => ret (dict_set results "drive" (failure_dict e)))
     else ret results) ;;
  ret {| results := results |}.

(** ** Listing endpoints *)

Inductive ListResponse :=
| S3Files (files : list (string * nat * string))
| GcsFiles (files : list (string * option nat * option string))
| DriveFiles (files : list (DriveFile E)).

(** [GET /list/s3] *)
Definition list_s3_files : M ListResponse :=
  if negb (truthy (S3_BUCKET_NAME cfg))
  then raise (HTTPException 500 "S3 bucket name not configured")
  else
    try_except
      (s3_client <- get_s3_client ;;
       response <- vendor (ListObjectsV2 (S3_BUCKET_NAME cfg))
                          (list_objects_v2 E s3_client (S3_BUCKET_NAME cfg)) ;;
       ret (S3Files
              (map (fun obj => (obj_Key obj, obj_Size obj, obj_LastModified obj))
                   response)))
      (fun e =>
         raise (HTTPException 500 ("Failed to list S3 files: " ++ str e))).

(** [GET /list/gcs] *)
Definition list_gcs_files : M ListResponse :=
  if negb (truthy (GCS_BUCKET_NAME cfg))
  then raise (HTTPException 500 "GCS bucket name not configured")
  else
    try_except
      (client <- get_gcs_client ;;
       bucket <- vendor (GcsBucket (GCS_BUCKET_NAME cfg))
                        (gcs_bucket E client (GCS_BUCKET_NAME cfg)) ;;
       blobs <- vendor ListBlobs (list_blobs E bucket) ;;
       ret (GcsFiles
              (map (fun blob => (blob_name blob, blob_size blob, blob_updated blob))
                   blobs)))
      (fun e =>
         raise (HTTPException 500 ("Failed to list GCS files: " ++ str e))).

(** [GET /list/drive] *)
Definition list_drive_files : M ListResponse :=
  try_except
    (service <- get_drive_service ;;
     let query :=
       if truthy (GOOGLE_DRIVE_FOLDER_ID cfg)
       then Some ("'" ++ fmt (GOOGLE_DRIVE_FOLDER_ID cfg) ++ "' in parents")
       else None in
     results <-
       vendor (FilesList query 20
                 "files(id, name, mimeType, modifiedTime, size, webViewLink)")
              (files_list E service query 20
                 "files(id, name, mimeType, modifiedTime, size, webViewLink)") ;;
     let files := match results with Some l => l | None => [] end in
     ret (DriveFiles files))
    (fun e =>
       raise (HTTPException 500 ("Failed to list Drive files: " ++ str e))).

(** ** Health endpoint *)

Record HealthResponse := {
  status : string;
  s3_configured : bool;
  gcs_configured : bool;
  drive_configured : bool
}.

(** [GET /health] *)
Definition health_check : M HealthResponse :=
  ret {| status := "healthy";
         s3_configured :=
           truthy (S3_BUCKET_NAME cfg) && truthy (AWS_ACCESS_KEY_ID cfg);
         gcs_configured := truthy (GCS_BUCKET_NAME cfg);
         drive_configured := truthy (GOOGLE_DRIVE_CREDENTIALS_FILE cfg) |}.

(** ** Routing and the HTTP surface *)

(** [POST /upload/{s3,gcs,drive}] *)
Definition upload_one (b : Backend) (file : UploadFile) : M UploadResponse :=
  match b with
  | S3 => upload_to_s3 file
  | GCS => upload_to_gcs file
  | Drive => upload_to_drive file
  end.

(** [GET /list/{s3,gcs,drive}] *)
Definition list_one (b : Backend) : M ListResponse :=
  match b with
  | S3 => list_s3_files
  | GCS => list_gcs_files
  | Drive => list_drive_files
  end.

(** The status line the framework answers with: 200 for a returned value,
    the carried code for an [HTTPException], 500 for anything else that
    escapes the handler. *)
Definition http_status {A} (r : Exn + A) : nat :=
  match r with
  | inr _ => 200
  | inl (HTTPException c _) => c
  | inl _ => 500
  end.

End Service.

Definition is_client_error (code : nat) : bool := (400 <=? code)%nat && (code <? 500)%nat.
Definition is_server_error (code : nat) : bool := (500 <=? code)%nat && (code <? 600)%nat.

(** ** Registration order and the two notions of "configured" *)

Definition registration_order : list Backend := [S3; GCS; Drive].

Definition key_of (b : Backend) : string :=
  match b with
  | S3 => "s3"
  | GCS => "gcs"
  | Drive => "drive"
  end.

(** The guard [upload_to_all_services] and [health_check] put on a backend. *)
Definition configured_for_all (cfg : CloudConfig) (b : Backend) : bool :=
  match b with
  | S3 => truthy (S3_BUCKET_NAME cfg) && truthy (AWS_ACCESS_KEY_ID cfg)
  | GCS => truthy (GCS_BUCKET_NAME cfg)
  | Drive => truthy (GOOGLE_DRIVE_CREDENTIALS_FILE cfg)
  end.

(** The guard the single-backend endpoints put on a backend. *)
Definition configured_for_one (cfg : CloudConfig) (b : Backend) : bool :=
  match b with
  | S3 => truthy (S3_BUCKET_NAME cfg)
  | GCS => truthy (GCS_BUCKET_NAME cfg)
  | Drive => true
  end.

Definition configured_backends (cfg : CloudConfig) : list Backend :=
  filter (configured_for_all cfg) registration_order.

(** A setting is present when the variable is set to a non-empty value. *)
Definition present (v : option string) : Prop :=
  exists s, v = Some s /\ s <> "".

(** ** Reading the ["results"] mapping *)

Definition entry_failed (d : PyDict PyVal) : bool :=
  match dict_get d "success" with
  | Some (VBool false) => true
  | _ => false
  end.

Definition count_failed (d : PyDict (PyDict PyVal)) : nat :=
  length (filter (fun kv => entry_failed (snd kv)) d).

Definition raised {A} (r : Exn + A) : bool :=
  match r with
  | inl _ => true
  | inr _ => false
  end.

(** [str(e)] of the web framework's [HTTPException], as Starlette
    defines it: [f"{self.status_code}: {self.detail}"]. *)
Definition starlette_str (status_code : nat) (detail : string) : string :=
  NilEmpty.string_of_uint (Nat.to_uint status_code) ++ ": " ++ detail.

(** ** A fake set of collaborators

    One world, unit handles.  The three switches make the upload call of a
    backend raise; [token] says whether the Drive token file exists, and
    [link] is the [webViewLink] the Drive answer carries. *)
Definition fake_external (fail_s3 fail_gcs fail_drive token : bool)
    (link : option string) : External := {|
  W := unit;
  S3Client := unit;
  GClient := unit;
  GBucket := unit;
  GBlob := unit;
  Creds := unit;
  DriveService := unit;
  Media := unit;
  DriveFile := string;
  boto3_client := fun _ _ _ w => (inr tt, w);
  put_object := fun _ _ _ _ _ w =>
    (if fail_s3 then inl (ClientError "AccessDenied") else inr tt, w);
  list_objects_v2 := fun _ _ w => (inr [], w);
  gcs_Client := fun _ w => (inr tt, w);
  gcs_bucket := fun _ _ w => (inr tt, w);
  gcs_blob := fun _ _ w => (inr tt, w);
  upload_from_string := fun _ _ _ w =>
    (if fail_gcs then inl (OtherException "Forbidden") else inr tt, w);
  list_blobs := fun _ w => (inr [], w);
  path_exists := fun _ _ => token;
  from_authorized_user_file := fun _ _ w => (inr tt, w);
  creds_valid := fun _ _ => true;
  creds_expired := fun _ _ => false;
  creds_refresh_token := fun _ _ => None;
  creds_refresh := fun _ w => (inr tt, w);
  build := fun _ _ _ w => (inr tt, w);
  media_io_base_upload := fun _ _ _ w => (inr tt, w);
  files_create := fun _ _ _ _ _ w =>
    (if fail_drive then inl (OtherException "quota exceeded")
     else inr {| webViewLink := link; id := Some "1a2b" |}, w);
  files_list := fun _ _ _ _ w => (inr (Some []), w);
  str_HTTPException := starlette_str
|}.

Definition initial_state (E : External) (w : W E) : State E := {|
  world := w;
  cursor := 0;
  environ_app_credentials := None;
  trace := []
|}.

Definition a_txt : UploadFile := {|
  filename := "a.txt";
  content_type := "text/plain";
  content := [x68; x65; x6c; x6c; x6f]
|}.

Definition cfg_none : CloudConfig := load_config empty_environ.

Definition cfg_only_s3 : CloudConfig :=
  load_config (fun k =>
    if k =? "S3_BUCKET_NAME" then Some "bucket-a"
    else if k =? "AWS_ACCESS_KEY_ID" then Some "AKIA"
    else None).

Definition cfg_all : CloudConfig :=
  load_config (fun k =>
    if k =? "S3_BUCKET_NAME" then Some "bucket-a"
    else if k =? "AWS_ACCESS_KEY_ID" then Some "AKIA"
    else if k =? "GCS_BUCKET_NAME" then Some "bucket-b"
    else if k =? "GOOGLE_DRIVE_CREDENTIALS_FILE" then Some "creds.json"
    else None).

(** S3 bucket name set, access key absent. *)
Definition cfg_bucket_only : CloudConfig :=
  load_config (fun k =>
    if k =? "S3_BUCKET_NAME" then Some "bucket-a" else None).

(** What a logged call must look like to carry the request unchanged. *)
Definition carries_request (file : UploadFile) (c : Call) : Prop :=
  match c with
  | PutObject _ k body ct =>
      k = filename file /\ body = content file /\ ct = content_type file
  | GcsBlob n => n = filename file
  | UploadFromString body ct =>
      body = content file /\ ct = content_type file
  | MediaIoBaseUpload body mt _ =>
      body = content file /\ mt = content_type file
  | FilesCreate n _ _ => n = filename file
  | _ => True
  end.

(** The call that hands the file's bytes to a backend. *)
Definition upload_call (cfg : CloudConfig) (file : UploadFile) (b : Backend) : Call :=
  match b with
  | S3 => PutObject (S3_BUCKET_NAME cfg) (filename file) (content file)
                    (content_type file)
  | GCS => UploadFromString (content file) (content_type file)
  | Drive => MediaIoBaseUpload (content file) (content_type file) true
  end.

(** File paths a logged call names. *)
Definition path_of (c : Call) : option string :=
  match c with
  | PathExists p => Some p
  | FromAuthorizedUserFile p _ => Some p
  | _ => None
  end.

Definition hardcoded_path (c : Call) : Prop :=
  match path_of c with
  | Some p => p = token_path
  | None => True
  end.

(** Collaborators that always return; the Drive answer carries a link. *)
Definition fake_ok : External :=
  fake_external false false false true
    (Some "https://drive.google.com/file/d/1a2b/view").


(** The detail carried by the exception of a single-backend guard. *)
Definition guard_detail (b : Backend) : string :=
  match b with
  | S3 => "S3 bucket name not configured"
  | GCS => "GCS bucket name not configured"
  | Drive => ""
  end.

(** ** The fan-out as a sequence of guarded attempts *)

Section FanOutSpec.

Variable E : External.
Variable cfg : CloudConfig.
Variable file : UploadFile.

(** The specification's reading of [uploadAll]: go through the given
    backends in order; for each, rewind the file and call its adapter;
    record the outcome and go on, whether it raised or not. *)
Fixpoint spec_attempts (bs : list Backend) (s : State E)
  : list (Backend * (Exn + UploadResponse)) * State E :=
  match bs with
  | [] => ([], s)
  | b :: bs' =>
      let (r, s1) := upload_one E cfg b file (snd (file_seek E 0 s)) in
      let (rs, s2) := spec_attempts bs' s1 in
      ((b, r) :: rs, s2)
  end.

(** The entry recorded for an outcome. *)
Definition entry_of (r : Exn + UploadResponse) : PyDict PyVal :=
  match r with
  | inr resp => to_dict resp
  | inl e => failure_dict E e
  end.

Definition spec_results (outs : list (Backend * (Exn + UploadResponse)))
  : PyDict (PyDict PyVal) :=
  map (fun o => (key_of (fst o), entry_of (snd o))) outs.

(** What one attempt leaves behind: its outcome [r] and its stretch [t]
    of the call log. *)
Definition segment_ok (b : Backend) (r : Exn + UploadResponse)
    (t : list Call) : Prop :=
  Forall (fun c => backend_of c = b) t /\
  (configured_for_one cfg b = true -> t <> []) /\
  Forall hardcoded_path t /\
  Forall (carries_request file) t /\
  (forall resp, r = inr resp ->
     success resp = true /\ In (upload_call cfg file b) t).

End FanOutSpec.

(** ** Further reading of the call log *)

(** Calls that move the file's bytes to a backend. *)
Definition is_transfer (c : Call) : bool :=
  match c with
  | PutObject _ _ _ _ | UploadFromString _ _ | FilesCreate _ _ _ => true
  | _ => false
  end.

(** Calls that carry bytes of the file at all. *)
Definition body_of (c : Call) : option bytes :=
  match c with
  | PutObject _ _ body _ => Some body
  | UploadFromString body _ => Some body
  | MediaIoBaseUpload body _ _ => Some body
  | _ => None
  end.

Definition sends_empty_body (c : Call) : Prop :=
  match body_of c with
  | Some body => body = []
  | None => True
  end.

(** The most vendor calls one upload, respectively one listing, can make. *)
Definition upload_call_bound (b : Backend) : nat :=
  match b with
  | S3 => 2
  | GCS => 4
  | Drive => 6
  end.

Definition list_call_bound (b : Backend) : nat :=
  match b with
  | S3 => 2
  | GCS => 3
  | Drive => 5
  end.

(** [GET /] *)
Definition root : string * list string :=
  ("Cloud File Upload API", ["/upload/s3"; "/upload/gcs"; "/upload/drive"]).

(** Collaborators whose S3 side can be made to raise: [client_error] at
    [boto3.client], [put_error] at [put_object]. *)
Definition fake_s3 (client_error put_error : option Exn) : External := {|
  W := unit;
  S3Client := unit;
  GClient := unit;
  GBucket := unit;
  GBlob := unit;
  Creds := unit;
  DriveService := unit;
  Media := unit;
  DriveFile := string;
  boto3_client := fun _ _ _ w =>
    (match client_error with Some e => inl e | None => inr tt end, w);
  put_object := fun _ _ _ _ _ w =>
    (match put_error with Some e => inl e | None => inr tt end, w);
  list_objects_v2 := fun _ _ w => (inr [], w);
  gcs_Client := fun _ w => (inr tt, w);
  gcs_bucket := fun _ _ w => (inr tt, w);
  gcs_blob := fun _ _ w => (inr tt, w);
  upload_from_string := fun _ _ _ w => (inr tt, w);
  list_blobs := fun _ w => (inr [], w);
  path_exists := fun _ _ => true;
  from_authorized_user_file := fun _ _ w => (inr tt, w);
  creds_valid := fun _ _ => true;
  creds_expired := fun _ _ => false;
  creds_refresh_token := fun _ _ => None;
  creds_refresh := fun _ w => (inr tt, w);
  build := fun _ _ _ w => (inr tt, w);
  media_io_base_upload := fun _ _ _ w => (inr tt, w);
  files_create := fun _ _ _ _ _ w =>
    (inr {| webViewLink := None; id := Some "1a2b" |}, w);
  files_list := fun _ _ _ _ w => (inr None, w);
  str_HTTPException := starlette_str
|}.

(** Collaborators whose backends hold files: two S3 objects, two GCS
    blobs, and a Drive answer given as a parameter. *)
Definition fake_listing (drive_answer : option (list string)) : External := {|
  W := unit;
  S3Client := unit;
  GClient := unit;
  GBucket := unit;
  GBlob := unit;
  Creds := unit;
  DriveService := unit;
  Media := unit;
  DriveFile := string;
  boto3_client := fun _ _ _ w => (inr tt, w);
  put_object := fun _ _ _ _ _ w => (inr tt, w);
  list_objects_v2 := fun _ _ w =>
    (inr [ {| obj_Key := "a.txt"; obj_Size := 5;
              obj_LastModified := "2024-01-01T00:00:00" |};
           {| obj_Key := "b.bin"; obj_Size := 7;
              obj_LastModified := "2024-02-02T00:00:00" |} ], w);
  gcs_Client := fun _ w => (inr tt, w);
  gcs_bucket := fun _ _ w => (inr tt, w);
  gcs_blob := fun _ _ w => (inr tt, w);
  upload_from_string := fun _ _ _ w => (inr tt, w);
  list_blobs := fun _ w =>
    (inr [ {| blob_name := "x.png"; blob_size := Some 9;
              blob_updated := Some "2024-03-03T00:00:00" |};
           {| blob_name := "y.png"; blob_size := None;
              blob_updated := None |} ], w);
  path_exists := fun _ _ => true;
  from_authorized_user_file := fun _ _ w => (inr tt, w);
  creds_valid := fun _ _ => true;
  creds_expired := fun _ _ => false;
  creds_refresh_token := fun _ _ => None;
  creds_refresh := fun _ w => (inr tt, w);
  build := fun _ _ _ w => (inr tt, w);
  media_io_base_upload := fun _ _ _ w => (inr tt, w);
  files_create := fun _ _ _ _ _ w =>
    (inr {| webViewLink := None; id := Some "1a2b" |}, w);
  files_list := fun _ _ _ _ w => (inr drive_answer, w);
  str_HTTPException := starlette_str
|}.

(** Collaborators without a Drive token file. *)
Definition fake_no_token : External :=
  fake_external false false false false None.

(** Everything of [cfg_only_s3], and the AWS secret key as well. *)
Definition cfg_s3_with_secret : CloudConfig :=
  load_config (fun k =>
    if k =? "S3_BUCKET_NAME" then Some "bucket-a"
    else if k =? "AWS_ACCESS_KEY_ID" then Some "AKIA"
    else if k =? "AWS_SECRET_ACCESS_KEY" then Some "s3cr3t"
    else if k =? "AWS_REGION" then Some "eu-west-1"
    else None).

(** A Drive folder configured. *)
Definition cfg_folder : CloudConfig :=
  load_config (fun k =>
    if k =? "GOOGLE_DRIVE_FOLDER_ID" then Some "folder-1" else None).

(** * Properties *)

#[local] Arguments String.append : simpl never.

(** ** Stepping through an endpoint

    [run_vendor] picks the next vendor call whose arguments are known and
    splits on whether it raised; [exec] unfolds an endpoint all the way. *)

Ltac run_vendor :=
  match goal with
  | |- context [boto3_client ?X ?x1 ?x2 ?x3 ?x4] =>
      destruct (boto3_client X x1 x2 x3 x4) as [[?e | ?c] ?w] eqn:?
  | |- context [put_object ?X ?x1 ?x2 ?x3 ?x4 ?x5 ?x6] =>
      destruct (put_object X x1 x2 x3 x4 x5 x6) as [[?e | ?u] ?w] eqn:?
  | |- context [list_objects_v2 ?X ?x1 ?x2 ?x3] =>
      destruct (list_objects_v2 X x1 x2 x3) as [[?e | ?l] ?w] eqn:?
  | |- context [gcs_Client ?X ?x1 ?x2] =>
      destruct (gcs_Client X x1 x2) as [[?e | ?c] ?w] eqn:?
  | |- context [gcs_bucket ?X ?x1 ?x2 ?x3] =>
      destruct (gcs_bucket X x1 x2 x3) as [[?e | ?b] ?w] eqn:?
  | |- context [gcs_blob ?X ?x1 ?x2 ?x3] =>
      destruct (gcs_blob X x1 x2 x3) as [[?e | ?b] ?w] eqn:?
  | |- context [upload_from_string ?X ?x1 ?x2 ?x3 ?x4] =>
      destruct (upload_from_string X x1 x2 x3 x4) as [[?e | ?u] ?w] eqn:?
  | |- context [list_blobs ?X ?x1 ?x2] =>
      destruct (list_blobs X x1 x2) as [[?e | ?l] ?w] eqn:?
  | |- context [path_exists ?X ?x1 ?x2] =>
      destruct (path_exists X x1 x2) eqn:?
  | |- context [from_authorized_user_file ?X ?x1 ?x2 ?x3] =>
      destruct (from_authorized_user_file X x1 x2 x3) as [[?e | ?c] ?w] eqn:?
  | |- context [creds_valid ?X ?x1 ?x2] =>
      destruct (creds_valid X x1 x2) eqn:?
  | |- context [creds_expired ?X ?x1 ?x2] =>
      destruct (creds_expired X x1 x2) eqn:?
  | |- context [truthy (creds_refresh_token ?X ?x1 ?x2)] =>
      destruct (truthy (creds_refresh_token X x1 x2)) eqn:?
  | |- context [creds_refresh ?X ?x1 ?x2] =>
      destruct (creds_refresh X x1 x2) as [[?e | ?u] ?w] eqn:?
  | |- context [build ?X ?x1 ?x2 ?x3 ?x4] =>
      destruct (build X x1 x2 x3 x4) as [[?e | ?sv] ?w] eqn:?
  | |- context [media_io_base_upload ?X ?x1 ?x2 ?x3 ?x4] =>
      destruct (media_io_base_upload X x1 x2 x3 x4) as [[?e | ?m] ?w] eqn:?
  | |- context [files_create ?X ?x1 ?x2 ?x3 ?x4 ?x5 ?x6] =>
      destruct (files_create X x1 x2 x3 x4 x5 x6) as [[?e | ?up] ?w] eqn:?
  | |- context [files_list ?X ?x1 ?x2 ?x3 ?x4 ?x5] =>
      destruct (files_list X x1 x2 x3 x4 x5) as [[?e | ?l] ?w] eqn:?
  | |- context [if negb (truthy ?x1) then _ else _] =>
      destruct (truthy x1) eqn:?
  | |- context [if truthy ?x1 then _ else _] =>
      destruct (truthy x1) eqn:?
  | |- context [match ?x1 with
                | HTTPException _ _ => _
                | NoCredentialsError _ => _
                | ClientError _ => _
                | OtherException _ => _
                end] => destruct x1
  end.

Ltac unfold_endpoints :=
  unfold upload_one, list_one, upload_to_s3, upload_to_gcs, upload_to_drive,
    list_s3_files, list_gcs_files, list_drive_files, get_s3_client,
    get_gcs_client, get_drive_service, health_check, bind, try_except,
    vendor_query, vendor, attr, ret, raise, file_read, file_seek,
    set_environ_app_credentials, get_environ_app_credentials in *.

Ltac exec := unfold_endpoints; cbn; repeat (run_vendor; cbn).

(** Brings a goal [exists t, (tr ++ [a]) ++ [b] = tr ++ t /\ _] into a
    form where [t] can be read off. *)
Ltac read_trace :=
  repeat rewrite <- app_assoc; cbn;
  eexists; split; [ first [ reflexivity | symmetry; apply app_nil_r ] | ].

Section AdapterFacts.

Variable E : External.
Variable cfg : CloudConfig.
Variable file : UploadFile.

(** An upload endpoint either returns a response that says
    [success = true] or raises an [HTTPException]. *)
Lemma upload_one_outcome b s :
  match fst (upload_one E cfg b file s) with
  | inr r => success r = true
  | inl e => exists c d, e = HTTPException c d
  end.
Proof.
  destruct b; exec; solve [ reflexivity | eauto ].
Qed.

(** The calls an upload endpoint adds to the log all belong to its backend,
    and there is at least one unless the endpoint's own guard rejects. *)
Lemma upload_one_trace b s :
  exists t,
    trace E (snd (upload_one E cfg b file s)) = (trace E s ++ t)%list /\
    Forall (fun c => backend_of c = b) t /\
    (configured_for_one cfg b = true -> t <> []) /\
    Forall hardcoded_path t.
Proof.
  destruct b; exec; read_trace;
    (split; [ repeat constructor
            | split; [ try discriminate; try congruence
                     | repeat constructor; cbn; auto ] ]).
Qed.

(** With the cursor at the start, every logged call carries the request's
    own name, bytes and content type, and a returned response means the
    upload call was made with the whole content. *)
Lemma upload_one_request b s :
  cursor E s = 0 ->
  exists t,
    trace E (snd (upload_one E cfg b file s)) = (trace E s ++ t)%list /\
    Forall (carries_request file) t /\
    (forall r, fst (upload_one E cfg b file s) = inr r ->
               In (upload_call cfg file b) t).
Proof.
  intros Hc. destruct s as [w0 cur env tr]. cbn in Hc. subst cur.
  destruct b; exec; read_trace;
    (split; [ repeat constructor; cbn; auto
            | intros r Hr; try discriminate; cbn; auto 10 ]).
Qed.

(** The guards of the S3 and GCS endpoints reject before anything else
    happens: same state, status 500. *)
Lemma upload_one_guard b s :
  configured_for_one cfg b = false ->
  upload_one E cfg b file s = (inl (HTTPException 500 (guard_detail b)), s).
Proof.
  destruct b; cbn; intros H; try discriminate;
    unfold upload_to_s3, upload_to_gcs; rewrite H; reflexivity.
Qed.

Lemma list_one_guard b s :
  configured_for_one cfg b = false ->
  list_one E cfg b s = (inl (HTTPException 500 (guard_detail b)), s).
Proof.
  destruct b; cbn; intros H; try discriminate;
    unfold list_s3_files, list_gcs_files; rewrite H; reflexivity.
Qed.

(** Listing: same shape of log as uploading. *)
Lemma list_one_trace b s :
  exists t,
    trace E (snd (list_one E cfg b s)) = (trace E s ++ t)%list /\
    Forall (fun c => backend_of c = b) t /\
    (configured_for_one cfg b = true -> t <> []) /\
    Forall hardcoded_path t.
Proof.
  destruct b; exec; read_trace;
    (split; [ repeat constructor
            | split; [ try discriminate; try congruence
                     | repeat constructor; cbn; auto ] ]).
Qed.

(** The Drive endpoints start by probing the token file, whatever the
    configuration says. *)
Lemma drive_reaches_client s :
  (exists t, trace E (snd (upload_to_drive E cfg file s))
             = (trace E s ++ PathExists token_path :: t)%list) /\
  (exists t, trace E (snd (list_drive_files E cfg s))
             = (trace E s ++ PathExists token_path :: t)%list).
Proof.
  split; exec; repeat rewrite <- app_assoc; cbn; eexists; reflexivity.
Qed.

(** Once the bucket name is set, [upload_to_s3] creates the S3 client
    with whatever credentials the configuration holds. *)
Lemma upload_to_s3_reaches_client s :
  truthy (S3_BUCKET_NAME cfg) = true ->
  exists t,
    trace E (snd (upload_to_s3 E cfg file s))
    = (trace E s
         ++ Boto3Client (AWS_ACCESS_KEY_ID cfg) (AWS_SECRET_ACCESS_KEY cfg)
                        (AWS_REGION cfg) :: t)%list.
Proof.
  intros H. unfold upload_to_s3. rewrite H.
  exec; repeat rewrite <- app_assoc; cbn; eexists; reflexivity.
Qed.

(** What the S3 endpoint answers when both of its vendor calls return. *)
Lemma upload_to_s3_ok s c w1 w2 :
  truthy (S3_BUCKET_NAME cfg) = true ->
  boto3_client E (AWS_ACCESS_KEY_ID cfg) (AWS_SECRET_ACCESS_KEY cfg)
               (AWS_REGION cfg) (world E s) = (inr c, w1) ->
  put_object E c (S3_BUCKET_NAME cfg) (filename file)
             (skipn (cursor E s) (content file)) (content_type file) w1
    = (inr tt, w2) ->
  fst (upload_to_s3 E cfg file s)
  = inr {| success := true;
           message := "File '" ++ filename file
                        ++ "' uploaded successfully to S3";
           file_url := Some ("https://" ++ fmt (S3_BUCKET_NAME cfg) ++ ".s3."
                               ++ AWS_REGION cfg ++ ".amazonaws.com/"
                               ++ filename file);
           file_id := None |}.
Proof.
  intros H H1 H2. unfold upload_to_s3. rewrite H.
  unfold_endpoints. cbn. rewrite H1. cbn. rewrite H2. reflexivity.
Qed.



End AdapterFacts.

(** ** The fan-out is the sequence of guarded attempts *)

Section FanOut.

Variable E : External.
Variable cfg : CloudConfig.
Variable file : UploadFile.

(** [upload_to_all_services] is exactly that sequence, run over the
    configured backends in registration order. *)
Lemma upload_all_refines s :
  upload_to_all_services E cfg file s
  = (inr {| results := spec_results E
                         (fst (spec_attempts E cfg file (configured_backends cfg) s)) |},
     snd (spec_attempts E cfg file (configured_backends cfg) s)).
Proof.
  unfold upload_to_all_services, configured_backends, registration_order.
  cbn [filter configured_for_all].
  unfold bind, try_except, ret.
  destruct (truthy (S3_BUCKET_NAME cfg) && truthy (AWS_ACCESS_KEY_ID cfg));
    destruct (truthy (GCS_BUCKET_NAME cfg));
    destruct (truthy (GOOGLE_DRIVE_CREDENTIALS_FILE cfg));
    cbn [spec_attempts upload_one file_seek snd fst];
    repeat match goal with
      | |- context [upload_to_s3 E cfg file ?st] =>
          destruct (upload_to_s3 E cfg file st) as [[? | ?] ?]
      | |- context [upload_to_gcs E cfg file ?st] =>
          destruct (upload_to_gcs E cfg file st) as [[? | ?] ?]
      | |- context [upload_to_drive E cfg file ?st] =>
          destruct (upload_to_drive E cfg file st) as [[? | ?] ?]
      | _ => progress cbn [spec_attempts upload_one file_seek snd fst]
      end;
    reflexivity.
Qed.

Lemma attempt_segment b s :
  exists t,
    trace E (snd (upload_one E cfg b file (snd (file_seek E 0 s))))
    = (trace E s ++ t)%list /\
    segment_ok cfg file b (fst (upload_one E cfg b file (snd (file_seek E 0 s)))) t.
Proof.
  set (s0 := snd (file_seek E 0 s)).
  assert (Hc : cursor E s0 = 0) by reflexivity.
  assert (Ht : trace E s0 = trace E s) by reflexivity.
  destruct (upload_one_trace E cfg file b s0) as (t & Et & Hb & Hne & Hp).
  destruct (upload_one_request E cfg file b s0 Hc) as (t' & Et' & Hreq & Hin).
  assert (t' = t) by (rewrite Et in Et'; eapply app_inv_head; eauto).
  subst t'. exists t. rewrite <- Ht. split; [exact Et |].
  split; [exact Hb |]. split; [exact Hne |]. split; [exact Hp |].
  split; [exact Hreq |]. intros resp Hr. split; [| exact (Hin resp Hr)].
  pose proof (upload_one_outcome E cfg file b s0) as Ho.
  rewrite Hr in Ho. exact Ho.
Qed.

Lemma spec_attempts_segments bs : forall s,
  exists ts,
    trace E (snd (spec_attempts E cfg file bs s)) = (trace E s ++ concat ts)%list /\
    Forall2 (fun o t => segment_ok cfg file (fst o) (snd o) t)
            (fst (spec_attempts E cfg file bs s)) ts /\
    map fst (fst (spec_attempts E cfg file bs s)) = bs.
Proof.
  induction bs as [| b bs IH]; intros s; cbn [spec_attempts].
  - exists []. cbn. rewrite app_nil_r. auto.
  - destruct (attempt_segment b s) as (t & Et & Hseg).
    destruct (upload_one E cfg b file (snd (file_seek E 0 s))) as [r s1].
    cbn [fst snd] in *.
    destruct (IH s1) as (ts & Ets & Hall & Hmap).
    destruct (spec_attempts E cfg file bs s1) as [rs s2]. cbn [fst snd] in *.
    exists (t :: ts). cbn [concat map fst]. repeat split.
    + rewrite Ets, Et, app_assoc. reflexivity.
    + constructor; auto.
    + f_equal. exact Hmap.
Qed.

End FanOut.

(** ** The order of invocation read off the log *)

Lemma Backend_eqb_eq a b : Backend_eqb a b = true <-> a = b.
Proof. destruct a, b; cbn; split; congruence. Qed.

Lemma Backend_eqb_refl b : Backend_eqb b b = true.
Proof. destruct b; reflexivity. Qed.

Lemma invoked_run b t u :
  Forall (fun c => backend_of c = b) t -> t <> [] ->
  invoked (t ++ u)
  = match invoked u with
    | b' :: bs => if Backend_eqb b b' then b' :: bs else b :: b' :: bs
    | [] => [b]
    end.
Proof.
  induction t as [| c t IH]; intros Hall Hne; [congruence |].
  inversion Hall as [| ? ? Hc Ht]; subst. cbn [app invoked].
  destruct t as [| c' t'].
  - cbn [app]. destruct (invoked u); reflexivity.
  - rewrite IH by (auto; discriminate).
    destruct (invoked u) as [| b' bs].
    + rewrite Backend_eqb_refl. reflexivity.
    + destruct (Backend_eqb (backend_of c) b') eqn:Eb.
      * rewrite Eb. reflexivity.
      * rewrite Backend_eqb_refl. reflexivity.
Qed.

Lemma invoked_segments (P : Backend -> list Call -> Prop) :
  (forall b t, P b t -> Forall (fun c => backend_of c = b) t /\ t <> []) ->
  forall bs ts,
    Forall2 P bs ts -> NoDup bs -> invoked (concat ts) = bs.
Proof.
  intros HP bs ts H. induction H as [| b t bs ts Hbt Hrest IH]; intros Hnd.
  - reflexivity.
  - inversion Hnd as [| ? ? Hnotin Hnd']; subst.
    destruct (HP b t Hbt) as [Hall Hne].
    cbn [concat]. rewrite (invoked_run b) by assumption.
    rewrite IH by assumption.
    destruct bs as [| b' bs']; [reflexivity |].
    destruct (Backend_eqb b b') eqn:Eb; [| reflexivity].
    apply Backend_eqb_eq in Eb. subst. exfalso. apply Hnotin. left. reflexivity.
Qed.

Lemma configured_backends_NoDup cfg : NoDup (configured_backends cfg).
Proof.
  apply NoDup_filter. unfold registration_order.
  repeat constructor; cbn; intuition discriminate.
Qed.

Lemma configured_backends_In cfg b :
  In b (configured_backends cfg) <-> configured_for_all cfg b = true.
Proof.
  unfold configured_backends. rewrite filter_In.
  unfold registration_order. destruct b; cbn; intuition.
Qed.

Lemma configured_for_all_one cfg b :
  configured_for_all cfg b = true -> configured_for_one cfg b = true.
Proof.
  destruct b; cbn; auto. intros H. apply andb_true_iff in H. tauto.
Qed.

Lemma key_of_inj a b : key_of a = key_of b -> a = b.
Proof. destruct a, b; cbn; congruence. Qed.

Lemma truthy_present v : truthy v = true <-> present v.
Proof.
  unfold present. destruct v as [x |]; cbn.
  - destruct (String.eqb_spec x ""); cbn; split.
    + discriminate.
    + intros (y & Hy & Hne). inversion Hy; subst. congruence.
    + intros _. eauto.
    + reflexivity.
  - split; [discriminate | intros (y & Hy & _); discriminate].
Qed.

(** ** Facts about the recorded results *)

Section Results.

Variable E : External.
Variable cfg : CloudConfig.
Variable file : UploadFile.

Lemma keys_spec_results outs :
  keys (spec_results E outs) = map key_of (map fst outs).
Proof.
  unfold keys, spec_results. rewrite !map_map. reflexivity.
Qed.

Lemma entry_failed_entry_of r :
  (forall resp, r = inr resp -> success resp = true) ->
  entry_failed (entry_of E r) = raised r.
Proof.
  intros H. destruct r as [e | resp]; cbn; [reflexivity |].
  rewrite (H resp eq_refl). reflexivity.
Qed.

Lemma count_failed_spec_results outs ts :
  Forall2 (fun o t => segment_ok cfg file (fst o) (snd o) t) outs ts ->
  count_failed (spec_results E outs)
  = length (filter (fun o => raised (snd o)) outs).
Proof.
  unfold count_failed. induction 1 as [| o t outs ts Hseg _ IH]; [reflexivity |].
  cbn [spec_results map filter snd]. fold (spec_results E outs).
  rewrite entry_failed_entry_of.
  - destruct (raised (snd o)); cbn [length]; rewrite IH; reflexivity.
  - intros resp Hr. apply Hseg. exact Hr.
Qed.

Lemma entry_has_success r :
  exists b, dict_get (entry_of E r) "success" = Some (VBool b).
Proof. destruct r; cbn; eauto. Qed.


Lemma segments_avoid b outs ts :
  Forall2 (fun o t => segment_ok cfg file (fst o) (snd o) t) outs ts ->
  ~ In b (map fst outs) ->
  Forall (fun c => backend_of c <> b) (concat ts).
Proof.
  induction 1 as [| o t outs ts Hseg _ IH]; intros Hn; cbn [concat].
  - constructor.
  - cbn [map In] in Hn. apply Forall_app. split.
    + destruct Hseg as [Hb _]. eapply Forall_impl; [| exact Hb].
      cbn. intros c Hc Heq. apply Hn. left. congruence.
    + apply IH. intros Hin. apply Hn. right. exact Hin.
Qed.


(** Everything the later theorems need to know about one run of the
    fan-out, in one place. *)
Lemma upload_all_run s :
  exists outs s' ts,
    spec_attempts E cfg file (configured_backends cfg) s = (outs, s') /\
    upload_to_all_services E cfg file s
    = (inr {| results := spec_results E outs |}, s') /\
    map fst outs = configured_backends cfg /\
    trace E s' = (trace E s ++ concat ts)%list /\
    Forall2 (fun o t => segment_ok cfg file (fst o) (snd o) t) outs ts /\
    invoked (concat ts) = configured_backends cfg.
Proof.
  destruct (spec_attempts_segments E cfg file (configured_backends cfg) s)
    as (ts & Et & Hseg & Hmap).
  pose proof (upload_all_refines E cfg file s) as Href.
  destruct (spec_attempts E cfg file (configured_backends cfg) s)
    as [outs s'] eqn:Erun.
  cbn [fst snd] in *.
  exists outs, s', ts. repeat split; auto.
  rewrite <- Hmap.
  assert (Hnd : NoDup (map fst outs))
    by (rewrite Hmap; apply configured_backends_NoDup).
  assert (Hcf : Forall (fun b => configured_for_one cfg b = true)
                       (map fst outs)).
  { rewrite Hmap. apply Forall_forall. intros b Hb.
    apply configured_for_all_one. apply configured_backends_In. exact Hb. }
  clear - Hseg Hnd Hcf.
  apply invoked_segments
    with (P := fun b t => Forall (fun c => backend_of c = b) t /\ t <> []);
    [tauto | | exact Hnd].
  induction Hseg as [| o t outs ts Ho _ IH]; cbn [map]; constructor.
  - inversion Hcf; subst. destruct Ho as (Hb & Hne & _). auto.
  - inversion Hcf; inversion Hnd; subst. apply IH; assumption.
Qed.

End Results.

(** * The claims *)

(** C1.  [upload_to_all_services] attempts every configured backend, in
    registration order, and never stops early: it returns the outcomes of
    the attempts on all [N] configured backends, one entry each, and the
    number of entries with [success = false] is the number [K] of attempts
    that raised.  The final state is the one reached after the last
    attempt, so an attempt that raised is followed by all the remaining
    ones. *)
Theorem upload_all_attempts_every_configured_backend
    (E : External) (cfg : CloudConfig) (file : UploadFile) (s : State E) :
  exists outs s' resp,
    spec_attempts E cfg file (configured_backends cfg) s = (outs, s') /\
    upload_to_all_services E cfg file s = (inr resp, s') /\
    map fst outs = filter (configured_for_all cfg) [S3; GCS; Drive] /\
    keys (results resp) = map key_of (map fst outs) /\
    length (results resp) = length (configured_backends cfg) /\
    count_failed (results resp)
    = length (filter (fun o => raised (snd o)) outs).
Proof.
  destruct (upload_all_run E cfg file s)
    as (outs & s' & ts & Erun & Eall & Hmap & _ & Hseg & _).
  exists outs, s', {| results := spec_results E outs |}.
  cbn [results]. repeat split; auto.
  - apply keys_spec_results.
  - unfold spec_results. rewrite length_map, <- Hmap, length_map. reflexivity.
  - eapply count_failed_spec_results. exact Hseg.
Qed.

(** C2, as amended.  When the bucket name of S3 or of GCS is absent, the
    upload and list endpoints of that backend raise
    [HTTPException 500 "... bucket name not configured"] in an unchanged
    state, so before any vendor call, and the status answered is a server
    error.  The Drive endpoints have no such guard: whatever the
    configuration, they start by probing the token file. *)
Theorem missing_bucket_is_a_server_error
    (E : External) (cfg : CloudConfig) (file : UploadFile) (s : State E) :
  (truthy (S3_BUCKET_NAME cfg) = false ->
     upload_to_s3 E cfg file s
     = (inl (HTTPException 500 "S3 bucket name not configured"), s) /\
     list_s3_files E cfg s
     = (inl (HTTPException 500 "S3 bucket name not configured"), s)) /\
  (truthy (GCS_BUCKET_NAME cfg) = false ->
     upload_to_gcs E cfg file s
     = (inl (HTTPException 500 "GCS bucket name not configured"), s) /\
     list_gcs_files E cfg s
     = (inl (HTTPException 500 "GCS bucket name not configured"), s)) /\
  (forall A d, is_server_error (@http_status A (inl (HTTPException 500 d))) = true /\
               is_client_error (@http_status A (inl (HTTPException 500 d))) = false) /\
  (exists t, trace E (snd (upload_to_drive E cfg file s))
             = (trace E s ++ PathExists "cred/drive/token.json" :: t)%list) /\
  (exists t, trace E (snd (list_drive_files E cfg s))
             = (trace E s ++ PathExists "cred/drive/token.json" :: t)%list).
Proof.
  split; [| split; [| split]].
  - intros H. split.
    + exact (upload_one_guard E cfg file S3 s H).
    + exact (list_one_guard E cfg S3 s H).
  - intros H. split.
    + exact (upload_one_guard E cfg file GCS s H).
    + exact (list_one_guard E cfg GCS s H).
  - intros A d. split; reflexivity.
  - exact (drive_reaches_client E cfg file s).
Qed.

(** C3.  The keys of the result mapping are the keys of the backends that
    pass the fan-out's configuration test, and nothing else: a backend
    that is not configured never appears; with no backend configured the
    mapping is empty; with only S3 configured the only key is ["s3"]. *)
Theorem upload_all_keys_are_the_configured_backends
    (E : External) (cfg : CloudConfig) (file : UploadFile) (s : State E) :
  exists resp s',
    upload_to_all_services E cfg file s = (inr resp, s') /\
    (forall b, In (key_of b) (keys (results resp))
               <-> configured_for_all cfg b = true) /\
    (forall k, In k (keys (results resp)) -> exists b, k = key_of b) /\
    ((forall b, configured_for_all cfg b = false) -> results resp = []) /\
    (configured_for_all cfg S3 = true ->
     configured_for_all cfg GCS = false ->
     configured_for_all cfg Drive = false ->
     keys (results resp) = ["s3"]).
Proof.
  destruct (upload_all_run E cfg file s)
    as (outs & s' & ts & _ & Eall & Hmap & _).
  exists {| results := spec_results E outs |}, s'. cbn [results].
  rewrite keys_spec_results, Hmap.
  split; [exact Eall |]. split; [| split; [| split]].
  - intros b. rewrite <- configured_backends_In. split.
    + intros Hin. apply in_map_iff in Hin. destruct Hin as (b' & Hk & Hb').
      apply key_of_inj in Hk. subst. exact Hb'.
    + apply in_map.
  - intros k Hin. apply in_map_iff in Hin. destruct Hin as (b & Hk & _). eauto.
  - intros Hnone. destruct outs as [| o outs]; [reflexivity |].
    exfalso. assert (Hin : In (fst o) (configured_backends cfg))
      by (rewrite <- Hmap; left; reflexivity).
    apply configured_backends_In in Hin. rewrite Hnone in Hin. discriminate.
  - intros H1 H2 H3. unfold configured_backends, registration_order.
    cbn [filter]. rewrite H1, H2, H3. reflexivity.
Qed.

(** C4.  [health_check] makes no vendor call and leaves the state alone;
    its three flags say exactly whether the settings are present (S3:
    bucket name and access key; GCS: bucket name; Drive: credentials-file
    setting), so the answer is the same whatever the backends would do.
    With an empty environment all three flags are false. *)
Theorem health_reports_presence_of_configuration
    (E : External) (cfg : CloudConfig) (s : State E) :
  exists h,
    health_check E cfg s = (inr h, s) /\
    (s3_configured h = true
       <-> present (S3_BUCKET_NAME cfg) /\ present (AWS_ACCESS_KEY_ID cfg)) /\
    (gcs_configured h = true <-> present (GCS_BUCKET_NAME cfg)) /\
    (drive_configured h = true <-> present (GOOGLE_DRIVE_CREDENTIALS_FILE cfg)) /\
    (forall (E' : External) (s' : State E'),
        fst (health_check E' cfg s') = inr h) /\
    (forall (E' : External) (s' : State E'),
        fst (health_check E' (load_config empty_environ) s')
        = inr {| status := "healthy"; s3_configured := false;
                 gcs_configured := false; drive_configured := false |}).
Proof.
  eexists. split; [reflexivity |]. cbn.
  rewrite andb_true_iff, !truthy_present.
  repeat split; tauto.
Qed.



(** C7.  The keys of the result mapping are in the order in which the
    adapters were invoked, as read off the call log, and that order is the
    registration order S3, GCS, Drive restricted to the configured
    backends. *)
Theorem upload_all_order_is_registration_order
    (E : External) (cfg : CloudConfig) (file : UploadFile) (s : State E) :
  exists resp s' t,
    upload_to_all_services E cfg file s = (inr resp, s') /\
    trace E s' = (trace E s ++ t)%list /\
    invoked t = filter (configured_for_all cfg) [S3; GCS; Drive] /\
    keys (results resp) = map key_of (invoked t).
Proof.
  destruct (upload_all_run E cfg file s)
    as (outs & s' & ts & _ & Eall & Hmap & Et & _ & Hinv).
  exists {| results := spec_results E outs |}, s', (concat ts).
  cbn [results]. repeat split; auto.
  rewrite keys_spec_results, Hmap, Hinv. reflexivity.
Qed.

(** C8.  [upload_to_all_services] always returns: the answer is a
    ["results"] mapping whose keys are among ["s3"], ["gcs"], ["drive"]
    and whose every value has a boolean ["success"] field. *)
Theorem upload_all_never_raises
    (E : External) (cfg : CloudConfig) (file : UploadFile) (s : State E) :
  exists resp s',
    upload_to_all_services E cfg file s = (inr resp, s') /\
    Forall (fun kv =>
              In (fst kv) ["s3"; "gcs"; "drive"] /\
              exists b, dict_get (snd kv) "success" = Some (VBool b))
           (results resp).
Proof.
  destruct (upload_all_run E cfg file s) as (outs & s' & ts & _ & Eall & _).
  exists {| results := spec_results E outs |}, s'. split; [exact Eall |].
  cbn [results]. unfold spec_results. apply Forall_map.
  apply Forall_forall. intros [b r] _. cbn [fst snd]. split.
  - destruct b; cbn; auto.
  - apply entry_has_success.
Qed.

(** The only path a logged call may name is the token path; so none
    names [cred/drive/credentials.json]. *)
Lemma hardcoded_path_is_the_token_path (t : list Call) :
  Forall hardcoded_path t ->
  Forall (fun c => forall p, path_of c = Some p -> p = "cred/drive/token.json") t /\
  Forall (fun c => path_of c <> Some "cred/drive/credentials.json") t.
Proof.
  intros H. split; (eapply Forall_impl; [| exact H]);
    unfold hardcoded_path; intros c Hc.
  - intros p Hp. rewrite Hp in Hc. exact Hc.
  - intros Hp. rewrite Hp in Hc. discriminate.
Qed.

(** C9, as amended.  The Drive endpoints do not read
    [GOOGLE_DRIVE_CREDENTIALS_FILE] or [GOOGLE_DRIVE_TOKEN_FILE]:
    replacing the two settings changes neither outcome nor final state.
    The only file path they hand to a vendor call is the hardcoded
    [cred/drive/token.json], with which they start; the hardcoded
    [cred/drive/credentials.json] is named by no call.  The
    credentials-file setting decides only the health flag and whether the
    fan-out includes Drive; the token-file setting decides nothing. *)
Theorem drive_adapter_ignores_credential_settings
    (E : External) (cfg : CloudConfig) (file : UploadFile) (s : State E)
    (creds : option string) (token : string) :
  upload_to_drive E (with_drive_settings cfg creds token) file s
  = upload_to_drive E cfg file s /\
  list_drive_files E (with_drive_settings cfg creds token) s
  = list_drive_files E cfg s /\
  (exists t, trace E (snd (upload_to_drive E cfg file s))
             = (trace E s ++ PathExists "cred/drive/token.json" :: t)%list /\
             Forall (fun c => forall p, path_of c = Some p ->
                                        p = "cred/drive/token.json") t /\
             Forall (fun c => path_of c <> Some "cred/drive/credentials.json")
                    (PathExists "cred/drive/token.json" :: t)) /\
  (exists t, trace E (snd (list_drive_files E cfg s))
             = (trace E s ++ PathExists "cred/drive/token.json" :: t)%list /\
             Forall (fun c => forall p, path_of c = Some p ->
                                        p = "cred/drive/token.json") t /\
             Forall (fun c => path_of c <> Some "cred/drive/credentials.json")
                    (PathExists "cred/drive/token.json" :: t)) /\
  (exists h, fst (health_check E (with_drive_settings cfg creds token) s) = inr h /\
             drive_configured h = truthy creds) /\
  (exists resp, fst (upload_to_all_services E (with_drive_settings cfg creds token) file s)
                = inr resp /\
                (In "drive" (keys (results resp)) <-> truthy creds = true)) /\
  (forall token',
     upload_to_all_services E (with_drive_settings cfg creds token') file s
     = upload_to_all_services E (with_drive_settings cfg creds token) file s).
Proof.
  split; [reflexivity |]. split; [reflexivity |].
  split; [| split; [| split; [| split]]].
  - destruct (drive_reaches_client E cfg file s) as [[t Ht] _].
    destruct (upload_one_trace E cfg file Drive s) as (t' & Ht' & _ & _ & Hp).
    cbn [upload_one] in Ht'. rewrite Ht in Ht'. apply app_inv_head in Ht'.
    subst t'. exists t. split; [exact Ht |].
    destruct (hardcoded_path_is_the_token_path _ Hp) as [H1 H2].
    split; [inversion H1; assumption | exact H2].
  - destruct (drive_reaches_client E cfg file s) as [_ [t Ht]].
    destruct (list_one_trace E cfg Drive s) as (t' & Ht' & _ & _ & Hp).
    cbn [list_one] in Ht'. rewrite Ht in Ht'. apply app_inv_head in Ht'.
    subst t'. exists t. split; [exact Ht |].
    destruct (hardcoded_path_is_the_token_path _ Hp) as [H1 H2].
    split; [inversion H1; assumption | exact H2].
  - eexists. split; reflexivity.
  - destruct (upload_all_run E (with_drive_settings cfg creds token) file s)
      as (outs & s' & ts & _ & Eall & Hmap & _).
    rewrite Eall. eexists. split; [reflexivity |]. cbn [results fst].
    rewrite keys_spec_results, Hmap.
    change "drive" with (key_of Drive).
    rewrite <- (configured_backends_In (with_drive_settings cfg creds token) Drive).
    split.
    + intros Hin. apply in_map_iff in Hin. destruct Hin as (b & Hk & Hb).
      apply key_of_inj in Hk. subst. exact Hb.
    + apply in_map.
  - intros token'. reflexivity.
Qed.

(** C10.  With the S3 bucket name set and the access key absent,
    [upload_to_s3] goes on to create the S3 client and succeeds if the
    vendor calls return, while [health_check] reports
    [s3_configured = false] and the fan-out neither records an ["s3"]
    entry nor makes any S3 call. *)
Theorem s3_configured_differs_between_operations
    (E : External) (cfg : CloudConfig) (file : UploadFile) (s : State E) :
  truthy (S3_BUCKET_NAME cfg) = true ->
  truthy (AWS_ACCESS_KEY_ID cfg) = false ->
  (exists t,
     trace E (snd (upload_to_s3 E cfg file s))
     = (trace E s
          ++ Boto3Client (AWS_ACCESS_KEY_ID cfg) (AWS_SECRET_ACCESS_KEY cfg)
                         (AWS_REGION cfg) :: t)%list) /\
  (forall c w1 w2,
     boto3_client E (AWS_ACCESS_KEY_ID cfg) (AWS_SECRET_ACCESS_KEY cfg)
                  (AWS_REGION cfg) (world E s) = (inr c, w1) ->
     put_object E c (S3_BUCKET_NAME cfg) (filename file)
                (skipn (cursor E s) (content file)) (content_type file) w1
       = (inr tt, w2) ->
     exists r, fst (upload_to_s3 E cfg file s) = inr r /\ success r = true) /\
  (exists h, health_check E cfg s = (inr h, s) /\ s3_configured h = false) /\
  (exists resp s' t,
     upload_to_all_services E cfg file s = (inr resp, s') /\
     ~ In "s3" (keys (results resp)) /\
     trace E s' = (trace E s ++ t)%list /\
     Forall (fun c => backend_of c <> S3) t).
Proof.
  intros Hb Hk. split; [| split; [| split]].
  - exact (upload_to_s3_reaches_client E cfg file s Hb).
  - intros c w1 w2 H1 H2.
    rewrite (upload_to_s3_ok E cfg file s c w1 w2 Hb H1 H2).
    eexists. split; reflexivity.
  - eexists. split; [reflexivity |]. cbn. rewrite Hb, Hk. reflexivity.
  - destruct (upload_all_run E cfg file s)
      as (outs & s' & ts & _ & Eall & Hmap & Et & Hseg & _).
    assert (Hnot : ~ In S3 (map fst outs)).
    { rewrite Hmap, configured_backends_In. cbn. rewrite Hb, Hk. discriminate. }
    exists {| results := spec_results E outs |}, s', (concat ts).
    cbn [results]. split; [exact Eall |]. split; [| split; [exact Et |]].
    + rewrite keys_spec_results. intros Hin. apply Hnot.
      apply in_map_iff in Hin. destruct Hin as (b & Hkey & Hin).
      change "s3" with (key_of S3) in Hkey. apply key_of_inj in Hkey.
      subst. exact Hin.
    + eapply segments_avoid; eauto.
Qed.

(** * Concrete runs *)

(** The scenario of the specification: only S3 configured, file
    ["a.txt"] holding ["hello"]. *)
Example scenario_only_s3 :
  fst (upload_to_all_services fake_ok cfg_only_s3 a_txt
                              (initial_state fake_ok tt))
  = inr {| results :=
             [ ("s3",
                [ ("success", VBool true);
                  ("message", VStr "File 'a.txt' uploaded successfully to S3");
                  ("file_url",
                   VStr "https://bucket-a.s3.us-east-1.amazonaws.com/a.txt");
                  ("file_id", VNone) ]) ] |}.
Proof. reflexivity. Qed.

(** Three backends configured, the GCS upload call raises: three entries,
    one of them failed, and Drive is still called after GCS. *)
Example fan_out_with_one_failure :
  let E := fake_external false true false true (Some "https://drive/1a2b") in
  let run := upload_to_all_services E cfg_all a_txt (initial_state E tt) in
  match fst run with
  | inr resp =>
      keys (results resp) = ["s3"; "gcs"; "drive"] /\
      count_failed (results resp) = 1 /\
      dict_get (results resp) "gcs"
      = Some [ ("success", VBool false);
               ("message", VStr "500: GCS upload failed: Forbidden") ]
  | inl _ => False
  end /\
  invoked (trace E (snd run)) = [S3; GCS; Drive] /\
  cursor E (snd run) = 5.
Proof. cbn. repeat split; reflexivity. Qed.

(** A missing Drive token: the 401 raised inside [get_drive_service] is
    caught by its own handler and again by the endpoint's, and leaves as
    a 500. *)
Example drive_without_token :
  let E := fake_external false false false false None in
  http_status (fst (upload_to_drive E cfg_all a_txt (initial_state E tt)))
  = 500.
Proof. reflexivity. Qed.

(** Counterexample to C2 as stated.  With nothing configured and a vendor
    side that would answer every call, the claim asks each single-backend
    upload to fail as a client error with the call log untouched.
    [POST /upload/s3] answers 500. *)
Lemma unconfigured_upload_is_not_a_client_error :
  ~ (forall b,
       configured_for_all cfg_none b = false ->
       trace fake_ok
         (snd (upload_one fake_ok cfg_none b a_txt (initial_state fake_ok tt)))
       = [] /\
       is_client_error
         (http_status
            (fst (upload_one fake_ok cfg_none b a_txt
                             (initial_state fake_ok tt)))) = true).
Proof.
  intros H. destruct (H S3 eq_refl) as [_ Hs]. vm_compute in Hs. discriminate.
Qed.

Lemma missing_bucket_is_a_server_error_witness :
  truthy (S3_BUCKET_NAME cfg_none) = false /\
  truthy (GCS_BUCKET_NAME cfg_none) = false /\
  upload_to_s3 fake_ok cfg_none a_txt (initial_state fake_ok tt)
  = (inl (HTTPException 500 "S3 bucket name not configured"),
     initial_state fake_ok tt) /\
  list_gcs_files fake_ok cfg_none (initial_state fake_ok tt)
  = (inl (HTTPException 500 "GCS bucket name not configured"),
     initial_state fake_ok tt).
Proof.
  split; [reflexivity |]. split; [reflexivity |].
  destruct (missing_bucket_is_a_server_error fake_ok cfg_none a_txt
              (initial_state fake_ok tt)) as (Hs3 & Hgcs & _).
  split.
  - exact (proj1 (Hs3 eq_refl)).
  - exact (proj2 (Hgcs eq_refl)).
Defined.

Lemma upload_all_keys_are_the_configured_backends_witness :
  (forall b, configured_for_all cfg_none b = false) /\
  (exists resp s',
     upload_to_all_services fake_ok cfg_none a_txt (initial_state fake_ok tt)
     = (inr resp, s') /\ results resp = []) /\
  configured_for_all cfg_only_s3 S3 = true /\
  configured_for_all cfg_only_s3 GCS = false /\
  configured_for_all cfg_only_s3 Drive = false /\
  (exists resp s',
     upload_to_all_services fake_ok cfg_only_s3 a_txt (initial_state fake_ok tt)
     = (inr resp, s') /\ keys (results resp) = ["s3"]).
Proof.
  assert (Hnone : forall b, configured_for_all cfg_none b = false)
    by (intros b; destruct b; reflexivity).
  split; [exact Hnone |]. split.
  - destruct (upload_all_keys_are_the_configured_backends fake_ok cfg_none a_txt
                (initial_state fake_ok tt))
      as (resp & s' & Eq & _ & _ & Hempty & _).
    exists resp, s'. split; [exact Eq | exact (Hempty Hnone)].
  - split; [reflexivity |]. split; [reflexivity |]. split; [reflexivity |].
    destruct (upload_all_keys_are_the_configured_backends fake_ok cfg_only_s3
                a_txt (initial_state fake_ok tt))
      as (resp & s' & Eq & _ & _ & _ & Honly).
    exists resp, s'. split; [exact Eq |].
    exact (Honly eq_refl eq_refl eq_refl).
Defined.

(** Counterexample to C9 as stated.  The claim has the Drive client read
    both hardcoded paths.  In a run where every vendor call returns, so
    that both Drive endpoints go all the way, no call of either names
    [cred/drive/credentials.json]. *)
Lemma drive_client_never_reads_credentials_json :
  ~ (exists c,
       In c (trace fake_ok
               (snd (upload_to_drive fake_ok cfg_all a_txt
                       (initial_state fake_ok tt)))) /\
       path_of c = Some "cred/drive/credentials.json") /\
  ~ (exists c,
       In c (trace fake_ok
               (snd (list_drive_files fake_ok cfg_all
                       (initial_state fake_ok tt)))) /\
       path_of c = Some "cred/drive/credentials.json").
Proof.
  split; intros (c & Hin & Hp); cbn in Hin;
    repeat (destruct Hin as [Hc | Hin]; [subst c; discriminate |]);
    contradiction.
Qed.




Lemma s3_configured_differs_between_operations_witness :
  truthy (S3_BUCKET_NAME cfg_bucket_only) = true /\
  truthy (AWS_ACCESS_KEY_ID cfg_bucket_only) = false /\
  (exists h,
     health_check fake_ok cfg_bucket_only (initial_state fake_ok tt)
     = (inr h, initial_state fake_ok tt) /\
     s3_configured h = false) /\
  (exists resp s' t,
     upload_to_all_services fake_ok cfg_bucket_only a_txt
                            (initial_state fake_ok tt) = (inr resp, s') /\
     ~ In "s3" (keys (results resp)) /\
     trace fake_ok s' = (trace fake_ok (initial_state fake_ok tt) ++ t)%list /\
     Forall (fun c => backend_of c <> S3) t).
Proof.
  split; [reflexivity |]. split; [reflexivity |].
  destruct (s3_configured_differs_between_operations fake_ok cfg_bucket_only
              a_txt (initial_state fake_ok tt) eq_refl eq_refl)
    as (_ & _ & Hh & Hall).
  split; [exact Hh | exact Hall].
Defined.

(** * Further properties of the endpoints *)

Section Clients.

Variable E : External.
Variable cfg : CloudConfig.
Variable file : UploadFile.

(** X1.  [get_drive_service] never lets its own 401 out: whatever goes
    wrong, the exception that leaves is an [HTTPException] with status 500
    and the prefix ["Failed to initialize Drive service: "].  Without a
    token file the only vendor call is the probe of the token path, and
    the detail wraps the text of the 401. *)
Theorem drive_service_failures_leave_as_500 (s : State E) :
  (forall e, fst (get_drive_service E s) = inl e ->
     exists d, e = HTTPException 500
                     ("Failed to initialize Drive service: " ++ d)) /\
  (path_exists E "cred/drive/token.json" (world E s) = false ->
     get_drive_service E s
     = (inl (HTTPException 500
               ("Failed to initialize Drive service: "
                  ++ str_HTTPException E 401
                       "Google Drive authentication required. Please run google_auth_flow.py to authenticate.")),
        {| world := world E s; cursor := cursor E s;
           environ_app_credentials := environ_app_credentials E s;
           trace := (trace E s ++ [PathExists "cred/drive/token.json"])%list |})).
Proof.
  split.
  - exec; intros e' H; inversion H; eauto.
  - intros H. unfold_endpoints. cbn. unfold token_path. rewrite H. reflexivity.
Qed.

(** X2.  [get_drive_service] fails closed: it returns a service only if
    the token file exists, the credentials were loaded from it, and they
    are either valid or expired with a refresh token and a refresh that
    returned. *)
Theorem drive_service_needs_usable_credentials (s : State E)
    (sv : DriveService E) :
  fst (get_drive_service E s) = inr sv ->
  path_exists E token_path (world E s) = true /\
  exists c w1,
    from_authorized_user_file E token_path scopes (world E s) = (inr c, w1) /\
    (creds_valid E c w1 = true \/
     (creds_valid E c w1 = false /\
      creds_expired E c w1 = true /\
      truthy (creds_refresh_token E c w1) = true /\
      exists w2, creds_refresh E c w1 = (inr tt, w2))).
Proof.
  exec; intros H; try discriminate;
    repeat match goal with u : unit |- _ => destruct u end;
    (split; [reflexivity |]); do 2 eexists; (split; [reflexivity |]);
    first [ left; assumption
          | right; repeat (split; [assumption |]); eexists; eassumption ].
Qed.

(** X3.  [upload_to_s3] answers 401 exactly when the client was created
    and [put_object] raised [NoCredentialsError]; every other failure is
    a 500.  In particular a [NoCredentialsError] raised while creating the
    client is wrapped by [get_s3_client] and leaves as a 500. *)
Theorem s3_upload_401_only_from_put_object (s : State E) :
  truthy (S3_BUCKET_NAME cfg) = true ->
  (http_status (fst (upload_to_s3 E cfg file s)) = 401
   <-> exists c w1 m w2,
         boto3_client E (AWS_ACCESS_KEY_ID cfg) (AWS_SECRET_ACCESS_KEY cfg)
                      (AWS_REGION cfg) (world E s) = (inr c, w1) /\
         put_object E c (S3_BUCKET_NAME cfg) (filename file)
                    (skipn (cursor E s) (content file)) (content_type file) w1
         = (inl (NoCredentialsError m), w2)) /\
  (forall e, fst (upload_to_s3 E cfg file s) = inl e ->
     e = HTTPException 401 "AWS credentials not found" \/
     exists d, e = HTTPException 500 d) /\
  (forall m w1,
     boto3_client E (AWS_ACCESS_KEY_ID cfg) (AWS_SECRET_ACCESS_KEY cfg)
                  (AWS_REGION cfg) (world E s)
     = (inl (NoCredentialsError m), w1) ->
     fst (upload_to_s3 E cfg file s)
     = inl (HTTPException 500
              ("Upload failed: "
                 ++ str_HTTPException E 500
                      ("Failed to initialize S3 client: " ++ m)))).
Proof.
  intros Hb. unfold upload_to_s3. rewrite Hb. cbn [negb].
  split; [| split].
  - unfold_endpoints. cbn.
    destruct (boto3_client E (AWS_ACCESS_KEY_ID cfg) (AWS_SECRET_ACCESS_KEY cfg)
                (AWS_REGION cfg) (world E s)) as [[e | c] w1] eqn:H1; cbn.
    + split; [discriminate |].
      intros (c' & w' & m' & w2' & H1' & _). discriminate.
    + destruct (put_object E c (S3_BUCKET_NAME cfg) (filename file)
                  (skipn (cursor E s) (content file)) (content_type file) w1)
        as [[e | u] w2] eqn:H2; cbn.
      * destruct e; cbn; split; try discriminate;
          try (intros (c' & w' & m' & w2' & H1' & H2');
               inversion H1'; subst; rewrite H2 in H2'; discriminate).
        -- intros _. exists c, w1, msg, w2. split; [reflexivity | exact H2].
        -- reflexivity.
      * split; [discriminate |].
        intros (c' & w' & m' & w2' & H1' & H2').
        inversion H1'; subst. rewrite H2 in H2'. discriminate.
  - exec; intros e' H; inversion H; eauto.
  - intros m w1 H. unfold_endpoints. cbn. rewrite H. reflexivity.
Qed.

(** X4.  Every failure of a listing endpoint, and every failure of the GCS
    and Drive upload endpoints, is an [HTTPException] with status 500:
    none of them ever answers with a client error. *)
Theorem failures_outside_s3_upload_are_500 (s : State E) :
  (forall b e, fst (list_one E cfg b s) = inl e ->
     exists d, e = HTTPException 500 d) /\
  (forall e, fst (upload_to_gcs E cfg file s) = inl e ->
     exists d, e = HTTPException 500 d) /\
  (forall e, fst (upload_to_drive E cfg file s) = inl e ->
     exists d, e = HTTPException 500 d).
Proof.
  split; [| split].
  - intros b; destruct b; exec; intros e' H; inversion H; eauto.
  - exec; intros e' H; inversion H; eauto.
  - exec; intros e' H; inversion H; eauto.
Qed.

End Clients.

Section SingleBackend.

Variable E : External.
Variable cfg : CloudConfig.
Variable file : UploadFile.

(** X5.  The only endpoints that write [os.environ] are the two GCS ones,
    and only when the bucket name and [GOOGLE_APPLICATION_CREDENTIALS] are
    both set: the entry then holds the configured value, whether or not
    the request succeeds.  In every other case the entry is left as it
    was; an absent setting never clears it. *)
Theorem environ_written_only_by_configured_gcs (b : Backend) (s : State E) :
  let after :=
    if Backend_eqb b GCS && truthy (GCS_BUCKET_NAME cfg)
       && truthy (GOOGLE_APPLICATION_CREDENTIALS cfg)
    then GOOGLE_APPLICATION_CREDENTIALS cfg
    else environ_app_credentials E s in
  environ_app_credentials E (snd (upload_one E cfg b file s)) = after /\
  environ_app_credentials E (snd (list_one E cfg b s)) = after.
Proof.
  destruct b; split; exec; reflexivity.
Qed.

(** After an upload that returned, the cursor is at the end of the file
    (or where it was, if that was further). *)
Lemma upload_one_moves_cursor b s r :
  fst (upload_one E cfg b file s) = inr r ->
  cursor E (snd (upload_one E cfg b file s))
  = Nat.max (cursor E s) (length (content file)).
Proof.
  destruct b; exec; intros H; try discriminate; reflexivity.
Qed.

(** From a cursor at the end, whatever is sent carries no bytes. *)
Lemma upload_one_from_the_end b s :
  length (content file) <= cursor E s ->
  exists t,
    trace E (snd (upload_one E cfg b file s)) = (trace E s ++ t)%list /\
    Forall sends_empty_body t.
Proof.
  intros Hc. pose proof (skipn_all2 (content file) Hc) as Hskip.
  destruct b; exec; read_trace; repeat constructor;
    unfold sends_empty_body; cbn; exact Hskip.
Qed.

(** X6.  The endpoints read from the cursor and never rewind it
    themselves: an upload that follows a returned upload on the same file,
    without a [seek(0)] in between, hands the vendor an empty body
    whatever the file holds. *)
Theorem second_upload_without_seek_sends_nothing
    (b1 b2 : Backend) (s : State E) (r : UploadResponse) :
  fst (upload_one E cfg b1 file s) = inr r ->
  exists t,
    trace E (snd (upload_one E cfg b2 file (snd (upload_one E cfg b1 file s))))
    = (trace E (snd (upload_one E cfg b1 file s)) ++ t)%list /\
    Forall sends_empty_body t.
Proof.
  intros H. apply upload_one_from_the_end.
  rewrite (upload_one_moves_cursor b1 s r H). apply Nat.le_max_r.
Qed.

(** X7.  No retry: a single-backend upload makes at most 2 (S3), 4 (GCS)
    or 6 (Drive) vendor calls, and at most one of them moves the file to
    the backend. *)
Theorem upload_makes_one_transfer_at_most (b : Backend) (s : State E) :
  exists t,
    trace E (snd (upload_one E cfg b file s)) = (trace E s ++ t)%list /\
    length t <= upload_call_bound b /\
    length (filter is_transfer t) <= 1.
Proof.
  destruct b; exec; read_trace; cbn; split; lia.
Qed.

(** X8.  Listing is read-only: a listing endpoint makes at most 2 (S3),
    3 (GCS) or 5 (Drive) vendor calls, all for its own backend, none of
    which carries bytes of a file or creates an object, and it leaves the
    file cursor where it was. *)
Theorem listing_is_read_only (b : Backend) (s : State E) :
  exists t,
    trace E (snd (list_one E cfg b s)) = (trace E s ++ t)%list /\
    length t <= list_call_bound b /\
    Forall (fun c => backend_of c = b /\ is_transfer c = false
                     /\ body_of c = None) t /\
    cursor E (snd (list_one E cfg b s)) = cursor E s.
Proof.
  destruct b; exec; read_trace; cbn;
    (split; [lia | split; [repeat constructor | reflexivity]]).
Qed.

End SingleBackend.

Section Listing.

Variable E : External.
Variable cfg : CloudConfig.
Variable file : UploadFile.

(** X9.  When its vendor calls return, a listing endpoint answers with as
    many entries as the vendor's answer has items, the [i]-th entry
    holding the fields of the [i]-th item: nothing is dropped, added or
    reordered.  A Drive answer with a ["files"] key is passed on as it
    is; one without lists as empty instead of failing. *)
Theorem listing_returns_the_vendor_items (s : State E) :
  (forall c w1 l w2,
     truthy (S3_BUCKET_NAME cfg) = true ->
     boto3_client E (AWS_ACCESS_KEY_ID cfg) (AWS_SECRET_ACCESS_KEY cfg)
                  (AWS_REGION cfg) (world E s) = (inr c, w1) ->
     list_objects_v2 E c (S3_BUCKET_NAME cfg) w1 = (inr l, w2) ->
     exists files,
       fst (list_s3_files E cfg s) = inr (S3Files E files) /\
       length files = length l /\
       forall i obj,
         nth_error l i = Some obj ->
         nth_error files i
         = Some (obj_Key obj, obj_Size obj, obj_LastModified obj)) /\
  (forall c w1 bk w2 l w3,
     truthy (GCS_BUCKET_NAME cfg) = true ->
     gcs_Client E
       (if truthy (GOOGLE_APPLICATION_CREDENTIALS cfg)
        then GOOGLE_APPLICATION_CREDENTIALS cfg
        else environ_app_credentials E s) (world E s) = (inr c, w1) ->
     gcs_bucket E c (GCS_BUCKET_NAME cfg) w1 = (inr bk, w2) ->
     list_blobs E bk w2 = (inr l, w3) ->
     exists files,
       fst (list_gcs_files E cfg s) = inr (GcsFiles E files) /\
       length files = length l /\
       forall i blob,
         nth_error l i = Some blob ->
         nth_error files i
         = Some (blob_name blob, blob_size blob, blob_updated blob)) /\
  (forall sv s1 answer w2,
     get_drive_service E s = (inr sv, s1) ->
     files_list E sv
       (if truthy (GOOGLE_DRIVE_FOLDER_ID cfg)
        then Some ("'" ++ fmt (GOOGLE_DRIVE_FOLDER_ID cfg) ++ "' in parents")
        else None)
       20 "files(id, name, mimeType, modifiedTime, size, webViewLink)"
       (world E s1) = (inr answer, w2) ->
     exists files,
       fst (list_drive_files E cfg s) = inr (DriveFiles E files) /\
       (forall l, answer = Some l -> files = l) /\
       (answer = None -> files = [])).
Proof.
  split; [| split].
  - intros c w1 l w2 H H1 H2. eexists. split; [| split].
    + unfold list_s3_files. rewrite H.
      unfold_endpoints. cbn. rewrite H1. cbn. rewrite H2. reflexivity.
    + apply length_map.
    + intros i obj Hi. rewrite nth_error_map, Hi. reflexivity.
  - intros c w1 bk w2 l w3 H H1 H2 H3. eexists. split; [| split].
    + unfold list_gcs_files. rewrite H.
      unfold_endpoints.
      destruct (truthy (GOOGLE_APPLICATION_CREDENTIALS cfg)); cbn in *;
        rewrite H1; cbn; rewrite H2; cbn; rewrite H3; reflexivity.
    + apply length_map.
    + intros i blob Hi. rewrite nth_error_map, Hi. reflexivity.
  - intros sv s1 answer w2 H1 H2. eexists. split; [| split].
    + unfold list_drive_files, bind, try_except.
      rewrite H1. unfold vendor, ret. rewrite H2. reflexivity.
    + intros l Hl. subst answer. reflexivity.
    + intros Hn. subst answer. reflexivity.
Qed.

(** X10.  The Drive folder setting scopes uploading and listing alike:
    with a non-empty folder id every created file names that folder as
    its only parent and every listing asks for the files in that folder;
    with the setting unset or empty neither a parent nor a query is sent.
    Listings always ask for pages of 20. *)
Theorem drive_folder_scopes_upload_and_listing
    (s : State E) (tu tl : list Call)
    (n fields fields' : string) (parents : option (list string))
    (q : option string) (size : nat) :
  trace E (snd (upload_to_drive E cfg file s)) = (trace E s ++ tu)%list ->
  trace E (snd (list_drive_files E cfg s)) = (trace E s ++ tl)%list ->
  In (FilesCreate n parents fields) tu ->
  In (FilesList q size fields') tl ->
  (forall folder,
     GOOGLE_DRIVE_FOLDER_ID cfg = Some folder -> folder <> "" ->
     parents = Some [folder] /\
     q = Some ("'" ++ folder ++ "' in parents")) /\
  (truthy (GOOGLE_DRIVE_FOLDER_ID cfg) = false ->
     parents = None /\ q = None) /\
  size = 20.
Proof.
  intros Hu Hl Hc Hq.
  assert (Hp : parents = if truthy (GOOGLE_DRIVE_FOLDER_ID cfg)
                          then Some [fmt (GOOGLE_DRIVE_FOLDER_ID cfg)]
                          else None).
  { clear Hl Hq. revert Hu Hc. exec; repeat rewrite <- app_assoc; cbn;
      intros Hu Hc;
      first [ apply app_inv_head in Hu
            | (rewrite <- (app_nil_r (trace E s)) in Hu at 1;
               apply app_inv_head in Hu) ];
      subst tu; cbn in Hc; intuition (try discriminate);
      match goal with H : FilesCreate _ _ _ = FilesCreate _ _ _ |- _ =>
        inversion H; reflexivity end. }
  assert (Hqq : q = (if truthy (GOOGLE_DRIVE_FOLDER_ID cfg)
                     then Some ("'" ++ fmt (GOOGLE_DRIVE_FOLDER_ID cfg)
                                  ++ "' in parents")
                     else None) /\ size = 20).
  { clear Hu Hc Hp. revert Hl Hq. exec; repeat rewrite <- app_assoc; cbn;
      intros Hl Hq;
      first [ apply app_inv_head in Hl
            | (rewrite <- (app_nil_r (trace E s)) in Hl at 1;
               apply app_inv_head in Hl) ];
      subst tl; cbn in Hq; intuition (try discriminate);
      match goal with H : FilesList _ _ _ = FilesList _ _ _ |- _ =>
        inversion H; reflexivity end. }
  destruct Hqq as [Hqq Hsize]. subst parents q.
  split; [| split; [| exact Hsize]].
  - intros folder Hf Hne. rewrite Hf. cbn.
    destruct (String.eqb_spec folder ""); [contradiction |]. cbn. auto.
  - intros Hf. rewrite Hf. auto.
Qed.

End Listing.

(** ** More on the fan-out *)

Section FanOutMore.

Variable E : External.
Variable cfg : CloudConfig.
Variable file : UploadFile.

(** A property of every single attempt holds of every attempt of the
    sequence. *)
Lemma spec_attempts_each
    (Q : Backend -> Exn + UploadResponse -> list Call -> Prop) :
  (forall b s0, exists t,
      trace E (snd (upload_one E cfg b file s0)) = (trace E s0 ++ t)%list /\
      Q b (fst (upload_one E cfg b file s0)) t) ->
  forall bs s, exists ts,
    trace E (snd (spec_attempts E cfg file bs s))
    = (trace E s ++ concat ts)%list /\
    Forall2 (fun o t => Q (fst o) (snd o) t)
            (fst (spec_attempts E cfg file bs s)) ts.
Proof.
  intros HQ. induction bs as [| b bs IH]; intros s; cbn [spec_attempts].
  - exists []. cbn. rewrite app_nil_r. auto.
  - destruct (HQ b (snd (file_seek E 0 s))) as (t & Et & Hq).
    destruct (upload_one E cfg b file (snd (file_seek E 0 s))) as [r s1].
    cbn [fst snd] in *.
    destruct (IH s1) as (ts & Ets & Hall).
    destruct (spec_attempts E cfg file bs s1) as [rs s2]. cbn [fst snd] in *.
    exists (t :: ts). cbn [concat]. split.
    + rewrite Ets, Et. cbn [file_seek snd trace]. rewrite app_assoc.
      reflexivity.
    + constructor; auto.
Qed.

Lemma spec_attempts_outcomes bs : forall s,
  Forall (fun o => match snd o with
                   | inr resp => success resp = true
                   | inl e => exists c d, e = HTTPException c d
                   end)
         (fst (spec_attempts E cfg file bs s)).
Proof.
  induction bs as [| b bs IH]; intros s; cbn [spec_attempts].
  - constructor.
  - pose proof (upload_one_outcome E cfg file b (snd (file_seek E 0 s))) as Ho.
    destruct (upload_one E cfg b file (snd (file_seek E 0 s))) as [r s1].
    specialize (IH s1).
    destruct (spec_attempts E cfg file bs s1) as [rs s2]. cbn [fst snd] in *.
    constructor; assumption.
Qed.

Lemma spec_attempts_backends bs : forall s,
  map fst (fst (spec_attempts E cfg file bs s)) = bs.
Proof.
  induction bs as [| b bs IH]; intros s; cbn [spec_attempts]; [reflexivity |].
  destruct (upload_one E cfg b file (snd (file_seek E 0 s))) as [r s1].
  specialize (IH s1).
  destruct (spec_attempts E cfg file bs s1) as [rs s2]. cbn [fst snd map] in *.
  f_equal. exact IH.
Qed.

(** X11.  The fan-out answers 200 whatever the backends did, and each
    entry has one of two shapes: a full upload response with
    [success = true], or just ["success": false] and a ["message"] holding
    [str(e)] of the [HTTPException] the adapter raised, and no other
    key. *)
Theorem fan_out_entry_shapes (s : State E) :
  exists resp,
    fst (upload_to_all_services E cfg file s) = inr resp /\
    http_status (fst (upload_to_all_services E cfg file s)) = 200 /\
    Forall (fun kv =>
              (keys (snd kv) = ["success"; "message"; "file_url"; "file_id"] /\
               dict_get (snd kv) "success" = Some (VBool true)) \/
              (keys (snd kv) = ["success"; "message"] /\
               dict_get (snd kv) "success" = Some (VBool false) /\
               exists c d,
                 dict_get (snd kv) "message"
                 = Some (VStr (str_HTTPException E c d))))
           (results resp).
Proof.
  rewrite upload_all_refines. cbn [fst http_status].
  eexists. split; [reflexivity |]. split; [reflexivity |].
  cbn [results]. unfold spec_results. apply Forall_map.
  eapply Forall_impl; [| apply spec_attempts_outcomes].
  intros [b [e | resp]]; cbn [fst snd entry_of].
  - intros (c & d & He). subst e. right. cbn. eauto.
  - intros Hs. left. cbn. rewrite Hs. auto.
Qed.

Lemma NoDup_map_key_of bs : NoDup bs -> NoDup (map key_of bs).
Proof.
  induction 1 as [| b bs Hnotin _ IH]; cbn [map]; constructor; [| exact IH].
  intros Hin. apply in_map_iff in Hin. destruct Hin as (b' & Hk & Hb').
  apply key_of_inj in Hk. subst. contradiction.
Qed.

Lemma key_eqb b' b : (key_of b' =? key_of b) = Backend_eqb b' b.
Proof. destruct b', b; reflexivity. Qed.

Lemma dict_get_spec_results outs b :
  dict_get (spec_results E outs) (key_of b)
  = match find (fun o => Backend_eqb (fst o) b) outs with
    | Some o => Some (entry_of E (snd o))
    | None => None
    end.
Proof.
  induction outs as [| o outs IH]; [reflexivity |].
  cbn [spec_results map dict_get find fst snd]. rewrite key_eqb.
  destruct (Backend_eqb (fst o) b); [reflexivity | exact IH].
Qed.

(** X12.  Looking a backend up in the result mapping by its key finds
    the outcome of that backend's own attempt: keys are not repeated,
    nothing is overwritten, and a backend that is not configured has no
    entry. *)
Theorem fan_out_lookup_by_key (s : State E) (b : Backend) :
  exists resp,
    fst (upload_to_all_services E cfg file s) = inr resp /\
    NoDup (keys (results resp)) /\
    (configured_for_all cfg b = false ->
       dict_get (results resp) (key_of b) = None) /\
    (configured_for_all cfg b = true ->
       exists r,
         In (b, r) (fst (spec_attempts E cfg file (configured_backends cfg) s)) /\
         dict_get (results resp) (key_of b) = Some (entry_of E r)).
Proof.
  rewrite upload_all_refines. cbn [fst].
  eexists. split; [reflexivity |]. cbn [results].
  pose proof (spec_attempts_backends (configured_backends cfg) s) as Hmap.
  set (outs := fst (spec_attempts E cfg file (configured_backends cfg) s)) in *.
  split; [| split].
  - rewrite keys_spec_results, Hmap.
    apply NoDup_map_key_of, configured_backends_NoDup.
  - intros Hb. rewrite dict_get_spec_results.
    destruct (find (fun o => Backend_eqb (fst o) b) outs) as [o |] eqn:Ef;
      [| reflexivity].
    apply find_some in Ef. destruct Ef as [Hin Heq].
    apply Backend_eqb_eq in Heq. exfalso.
    assert (Hc : In b (configured_backends cfg)).
    { rewrite <- Hmap, <- Heq. apply in_map. exact Hin. }
    apply configured_backends_In in Hc. congruence.
  - intros Hb. rewrite dict_get_spec_results.
    destruct (find (fun o => Backend_eqb (fst o) b) outs) as [o |] eqn:Ef.
    + apply find_some in Ef. destruct Ef as [Hin Heq].
      apply Backend_eqb_eq in Heq. destruct o as [b' r]. cbn [fst snd] in *.
      subst b'. exists r. split; [exact Hin | reflexivity].
    + exfalso. apply configured_backends_In in Hb. rewrite <- Hmap in Hb.
      apply in_map_iff in Hb. destruct Hb as (o & Ho & Hin).
      pose proof (find_none _ _ Ef o Hin) as Hn. cbn in Hn.
      rewrite Ho, Backend_eqb_refl in Hn. discriminate.
Qed.

Lemma segments_call_counts outs ts :
  Forall2 (fun (o : Backend * (Exn + UploadResponse)) t =>
             length t <= upload_call_bound (fst o) /\
             length (filter is_transfer t) <= 1) outs ts ->
  length (concat ts) <= list_sum (map upload_call_bound (map fst outs)) /\
  length (filter is_transfer (concat ts)) <= length outs.
Proof.
  induction 1 as [| o t outs ts [H1 H2] _ [IH1 IH2]]; cbn; [lia |].
  rewrite length_app, filter_app, length_app.
  fold (list_sum (map upload_call_bound (map fst outs))). lia.
Qed.

(** X13.  No retry in the fan-out either: one request makes at most 12
    vendor calls in all, and at most one transfer of the file per
    configured backend. *)
Theorem fan_out_call_budget (s : State E) :
  exists t,
    trace E (snd (upload_to_all_services E cfg file s))
    = (trace E s ++ t)%list /\
    length t <= 12 /\
    length (filter is_transfer t) <= length (configured_backends cfg).
Proof.
  rewrite upload_all_refines. cbn [snd].
  destruct (spec_attempts_each
              (fun b _ t => length t <= upload_call_bound b /\
                            length (filter is_transfer t) <= 1)
              (fun b s0 => upload_makes_one_transfer_at_most E cfg file b s0)
              (configured_backends cfg) s) as (ts & Et & Hall).
  exists (concat ts). split; [exact Et |].
  apply segments_call_counts in Hall. destruct Hall as [H1 H2].
  rewrite <- (length_map fst) in H2.
  rewrite spec_attempts_backends in H1, H2. split; [| exact H2].
  eapply Nat.le_trans; [exact H1 |].
  unfold configured_backends, registration_order. cbn [filter].
  destruct (configured_for_all cfg S3), (configured_for_all cfg GCS),
    (configured_for_all cfg Drive); cbn; lia.
Qed.

End FanOutMore.

(** X14.  Routing reads four settings and only their truthiness: two
    configurations that agree on whether the S3 bucket name, the AWS
    access key id, the GCS bucket name and the Drive credentials-file
    setting are set give the same health answer and the same keys in the
    fan-out's result, whatever the other settings, the file or the
    backends.  In particular the AWS secret key is not looked at. *)
Theorem routing_depends_on_four_settings
    (E E' : External) (cfg cfg' : CloudConfig) (file file' : UploadFile)
    (s : State E) (s' : State E') :
  truthy (S3_BUCKET_NAME cfg) = truthy (S3_BUCKET_NAME cfg') ->
  truthy (AWS_ACCESS_KEY_ID cfg) = truthy (AWS_ACCESS_KEY_ID cfg') ->
  truthy (GCS_BUCKET_NAME cfg) = truthy (GCS_BUCKET_NAME cfg') ->
  truthy (GOOGLE_DRIVE_CREDENTIALS_FILE cfg)
  = truthy (GOOGLE_DRIVE_CREDENTIALS_FILE cfg') ->
  fst (health_check E cfg s) = fst (health_check E' cfg' s') /\
  exists resp resp',
    fst (upload_to_all_services E cfg file s) = inr resp /\
    fst (upload_to_all_services E' cfg' file' s') = inr resp' /\
    keys (results resp) = keys (results resp').
Proof.
  intros H1 H2 H3 H4. split.
  - cbn. rewrite H1, H2, H3, H4. reflexivity.
  - rewrite !upload_all_refines. cbn [fst].
    do 2 eexists. split; [reflexivity |]. split; [reflexivity |].
    cbn [results]. rewrite !keys_spec_results, !spec_attempts_backends.
    unfold configured_backends, registration_order. cbn [filter configured_for_all].
    rewrite H1, H2, H3, H4. reflexivity.
Qed.

(** X15.  The file is read only to be sent: if an upload endpoint made no
    call that carries bytes, the cursor is where it was.  So a request
    that fails while the client is being obtained leaves the file unread. *)
Theorem unsent_file_is_unread
    (E : External) (cfg : CloudConfig) (file : UploadFile) (b : Backend)
    (s : State E) (t : list Call) :
  trace E (snd (upload_one E cfg b file s)) = (trace E s ++ t)%list ->
  Forall (fun c => body_of c = None) t ->
  cursor E (snd (upload_one E cfg b file s)) = cursor E s.
Proof.
  destruct b; exec; repeat rewrite <- app_assoc; cbn; intros Ht Hall;
    try reflexivity;
    apply app_inv_head in Ht; subst t;
    repeat match goal with
      | H : Forall _ (_ :: _) |- _ => inversion H; subst; clear H
      end;
    cbn in *; discriminate.
Qed.

(** * Concrete runs of the further properties *)

(** A [NoCredentialsError] from [put_object] is answered 401, the same
    error from [boto3.client] 500. *)
Example s3_credentials_error_statuses :
  let at_put := fake_s3 None (Some (NoCredentialsError "Unable to locate credentials")) in
  let at_client := fake_s3 (Some (NoCredentialsError "Unable to locate credentials")) None in
  http_status (fst (upload_to_s3 at_put cfg_only_s3 a_txt (initial_state at_put tt)))
  = 401 /\
  fst (upload_to_s3 at_client cfg_only_s3 a_txt (initial_state at_client tt))
  = inl (HTTPException 500
           "Upload failed: 500: Failed to initialize S3 client: Unable to locate credentials").
Proof. split; reflexivity. Qed.

Lemma drive_service_failures_leave_as_500_witness :
  path_exists fake_no_token "cred/drive/token.json"
    (world fake_no_token (initial_state fake_no_token tt)) = false /\
  http_status (fst (get_drive_service fake_no_token
                      (initial_state fake_no_token tt))) = 500 /\
  exists d,
    HTTPException 500
      "Failed to initialize Drive service: 401: Google Drive authentication required. Please run google_auth_flow.py to authenticate."
    = HTTPException 500 ("Failed to initialize Drive service: " ++ d).
Proof.
  destruct (drive_service_failures_leave_as_500 fake_no_token
              (initial_state fake_no_token tt)) as [Hall Hmissing].
  split; [reflexivity |]. split.
  - rewrite (Hmissing eq_refl). reflexivity.
  - exact (Hall _ eq_refl).
Defined.

Lemma drive_service_needs_usable_credentials_witness :
  fst (get_drive_service fake_ok (initial_state fake_ok tt)) = inr tt /\
  path_exists fake_ok token_path (world fake_ok (initial_state fake_ok tt))
  = true.
Proof.
  split; [reflexivity |].
  exact (proj1 (drive_service_needs_usable_credentials fake_ok
                  (initial_state fake_ok tt) tt eq_refl)).
Defined.

Lemma s3_upload_401_only_from_put_object_witness :
  let E := fake_s3 None (Some (NoCredentialsError "Unable to locate credentials")) in
  truthy (S3_BUCKET_NAME cfg_only_s3) = true /\
  http_status (fst (upload_to_s3 E cfg_only_s3 a_txt (initial_state E tt)))
  = 401.
Proof.
  cbv zeta. split; [reflexivity |].
  apply (proj1 (s3_upload_401_only_from_put_object
                  (fake_s3 None (Some (NoCredentialsError "Unable to locate credentials")))
                  cfg_only_s3 a_txt
                  (initial_state
                     (fake_s3 None (Some (NoCredentialsError "Unable to locate credentials")))
                     tt)
                  eq_refl)).
  exists tt, tt, "Unable to locate credentials", tt.
  split; reflexivity.
Defined.

Lemma failures_outside_s3_upload_are_500_witness :
  fst (list_one fake_ok cfg_none S3 (initial_state fake_ok tt))
  = inl (HTTPException 500 "S3 bucket name not configured") /\
  (exists d, HTTPException 500 "S3 bucket name not configured"
             = HTTPException 500 d) /\
  (exists e d,
     fst (upload_to_drive fake_no_token cfg_all a_txt
                          (initial_state fake_no_token tt)) = inl e /\
     e = HTTPException 500 d).
Proof.
  split; [reflexivity |]. split.
  - exact (proj1 (failures_outside_s3_upload_are_500 fake_ok cfg_none a_txt
                    (initial_state fake_ok tt)) S3 _ eq_refl).
  - eexists.
    destruct (proj2 (proj2 (failures_outside_s3_upload_are_500 fake_no_token
                              cfg_all a_txt (initial_state fake_no_token tt)))
                _ eq_refl) as [d Hd].
    exists d. split; [reflexivity | exact Hd].
Defined.

Lemma second_upload_without_seek_sends_nothing_witness :
  (exists r,
     fst (upload_one fake_ok cfg_all S3 a_txt (initial_state fake_ok tt))
     = inr r) /\
  exists t,
    trace fake_ok
      (snd (upload_one fake_ok cfg_all GCS a_txt
              (snd (upload_one fake_ok cfg_all S3 a_txt
                      (initial_state fake_ok tt)))))
    = (trace fake_ok
         (snd (upload_one fake_ok cfg_all S3 a_txt (initial_state fake_ok tt)))
         ++ t)%list /\
    Forall sends_empty_body t.
Proof.
  split; [eexists; reflexivity |].
  exact (second_upload_without_seek_sends_nothing fake_ok cfg_all a_txt S3 GCS
           (initial_state fake_ok tt) _ eq_refl).
Defined.

Lemma listing_returns_the_vendor_items_witness :
  truthy (S3_BUCKET_NAME cfg_all) = true /\
  (exists files,
     fst (list_s3_files (fake_listing None) cfg_all
            (initial_state (fake_listing None) tt))
     = inr (S3Files (fake_listing None) files) /\
     length files = 2 /\
     nth_error files 1 = Some ("b.bin", 7, "2024-02-02T00:00:00")) /\
  (exists files,
     fst (list_gcs_files (fake_listing None) cfg_all
            (initial_state (fake_listing None) tt))
     = inr (GcsFiles (fake_listing None) files) /\
     length files = 2 /\
     nth_error files 0 = Some ("x.png", Some 9, Some "2024-03-03T00:00:00")) /\
  (exists files,
     fst (list_drive_files (fake_listing (Some ["report.pdf"; "notes.txt"]))
            cfg_all
            (initial_state (fake_listing (Some ["report.pdf"; "notes.txt"])) tt))
     = inr (DriveFiles (fake_listing (Some ["report.pdf"; "notes.txt"])) files) /\
     files = ["report.pdf"; "notes.txt"]) /\
  (exists files,
     fst (list_drive_files (fake_listing None) cfg_all
            (initial_state (fake_listing None) tt))
     = inr (DriveFiles (fake_listing None) files) /\
     files = []).
Proof.
  split; [reflexivity |]. split; [| split; [| split]].
  - destruct (proj1 (listing_returns_the_vendor_items (fake_listing None)
                       cfg_all (initial_state (fake_listing None) tt))
                    tt tt _ tt eq_refl eq_refl eq_refl)
      as (files & Hf & Hlen & Hnth).
    exists files. split; [exact Hf |]. split; [exact Hlen |].
    exact (Hnth 1 _ eq_refl).
  - destruct (proj1 (proj2 (listing_returns_the_vendor_items (fake_listing None)
                              cfg_all (initial_state (fake_listing None) tt)))
                    tt tt tt tt _ tt eq_refl eq_refl eq_refl eq_refl)
      as (files & Hf & Hlen & Hnth).
    exists files. split; [exact Hf |]. split; [exact Hlen |].
    exact (Hnth 0 _ eq_refl).
  - destruct (proj2 (proj2 (listing_returns_the_vendor_items
                              (fake_listing (Some ["report.pdf"; "notes.txt"]))
                              cfg_all
                              (initial_state
                                 (fake_listing (Some ["report.pdf"; "notes.txt"]))
                                 tt)))
                    tt
                    (snd (get_drive_service
                            (fake_listing (Some ["report.pdf"; "notes.txt"]))
                            (initial_state
                               (fake_listing (Some ["report.pdf"; "notes.txt"]))
                               tt)))
                    (Some ["report.pdf"; "notes.txt"]) tt eq_refl eq_refl)
      as (files & Hf & Hsome & _).
    exists files. split; [exact Hf | exact (Hsome _ eq_refl)].
  - destruct (proj2 (proj2 (listing_returns_the_vendor_items (fake_listing None)
                              cfg_all (initial_state (fake_listing None) tt)))
                    tt
                    (snd (get_drive_service (fake_listing None)
                            (initial_state (fake_listing None) tt)))
                    None tt eq_refl eq_refl)
      as (files & Hf & _ & Hnone).
    exists files. split; [exact Hf | exact (Hnone eq_refl)].
Defined.

Lemma drive_folder_scopes_upload_and_listing_witness :
  GOOGLE_DRIVE_FOLDER_ID cfg_folder = Some "folder-1" /\
  In (FilesCreate "a.txt" (Some ["folder-1"]) "id,webViewLink,webContentLink")
     (trace fake_ok
        (snd (upload_to_drive fake_ok cfg_folder a_txt
                (initial_state fake_ok tt)))) /\
  In (FilesList (Some "'folder-1' in parents") 20
        "files(id, name, mimeType, modifiedTime, size, webViewLink)")
     (trace fake_ok
        (snd (list_drive_files fake_ok cfg_folder (initial_state fake_ok tt)))) /\
  ((forall folder,
      GOOGLE_DRIVE_FOLDER_ID cfg_folder = Some folder -> folder <> "" ->
      Some ["folder-1"] = Some [folder] /\
      Some "'folder-1' in parents" = Some ("'" ++ folder ++ "' in parents")) /\
   (truthy (GOOGLE_DRIVE_FOLDER_ID cfg_folder) = false ->
      Some ["folder-1"] = None /\ Some "'folder-1' in parents" = None) /\
   20 = 20).
Proof.
  split; [reflexivity |].
  split; [cbn; auto 10 |]. split; [cbn; auto 10 |].
  apply (drive_folder_scopes_upload_and_listing fake_ok cfg_folder a_txt
           (initial_state fake_ok tt)
           (trace fake_ok
              (snd (upload_to_drive fake_ok cfg_folder a_txt
                      (initial_state fake_ok tt))))
           (trace fake_ok
              (snd (list_drive_files fake_ok cfg_folder
                      (initial_state fake_ok tt))))
           "a.txt" "id,webViewLink,webContentLink"
           "files(id, name, mimeType, modifiedTime, size, webViewLink)"
           (Some ["folder-1"]) (Some "'folder-1' in parents") 20).
  - reflexivity.
  - reflexivity.
  - cbn; auto 10.
  - cbn; auto 10.
Defined.

Lemma fan_out_lookup_by_key_witness :
  configured_for_all cfg_only_s3 S3 = true /\
  configured_for_all cfg_only_s3 GCS = false /\
  (exists resp,
     fst (upload_to_all_services fake_ok cfg_only_s3 a_txt
            (initial_state fake_ok tt)) = inr resp /\
     dict_get (results resp) "gcs" = None) /\
  (exists resp r,
     fst (upload_to_all_services fake_ok cfg_only_s3 a_txt
            (initial_state fake_ok tt)) = inr resp /\
     dict_get (results resp) "s3" = Some (entry_of fake_ok r)).
Proof.
  split; [reflexivity |]. split; [reflexivity |]. split.
  - destruct (fan_out_lookup_by_key fake_ok cfg_only_s3 a_txt
                (initial_state fake_ok tt) GCS) as (resp & Hr & _ & Hnone & _).
    exists resp. split; [exact Hr | exact (Hnone eq_refl)].
  - destruct (fan_out_lookup_by_key fake_ok cfg_only_s3 a_txt
                (initial_state fake_ok tt) S3) as (resp & Hr & _ & _ & Hsome).
    destruct (Hsome eq_refl) as (r & _ & Hget).
    exists resp, r. split; [exact Hr | exact Hget].
Defined.

Lemma routing_depends_on_four_settings_witness :
  AWS_SECRET_ACCESS_KEY cfg_only_s3 <> AWS_SECRET_ACCESS_KEY cfg_s3_with_secret /\
  fst (health_check fake_ok cfg_only_s3 (initial_state fake_ok tt))
  = fst (health_check fake_no_token cfg_s3_with_secret
           (initial_state fake_no_token tt)).
Proof.
  split; [discriminate |].
  exact (proj1 (routing_depends_on_four_settings fake_ok fake_no_token
                  cfg_only_s3 cfg_s3_with_secret a_txt a_txt
                  (initial_state fake_ok tt) (initial_state fake_no_token tt)
                  eq_refl eq_refl eq_refl eq_refl)).
Defined.

Lemma unsent_file_is_unread_witness :
  let E := fake_s3 (Some (OtherException "could not connect")) None in
  trace E (snd (upload_one E cfg_only_s3 S3 a_txt (initial_state E tt)))
  = [Boto3Client (Some "AKIA") None "us-east-1"] /\
  cursor E (snd (upload_one E cfg_only_s3 S3 a_txt (initial_state E tt))) = 0.
Proof.
  cbv zeta. split; [reflexivity |].
  apply (unsent_file_is_unread
           (fake_s3 (Some (OtherException "could not connect")) None)
           cfg_only_s3 a_txt S3
           (initial_state
              (fake_s3 (Some (OtherException "could not connect")) None) tt)
           [Boto3Client (Some "AKIA") None "us-east-1"]).
  - reflexivity.
  - repeat constructor.
Defined.
